(** * RBN Viagens: the ledger and reconciliation engine of [app.py]

    A shallow embedding of the balance calculator [calc_user_totals], the
    statement builder [fetch_user_statement] and the approval route
    [admin_set_expense_status], together with the part of the SQLite store
    they read and write; then of the routes around them: the profile page
    and its CSV export, [trip_detail], [admin_trip_reassign],
    [admin_delete_user], [admin_dashboard], the token API and
    [ext_allowed].

    Conventions of the embedding.
    - A table is the list of its rows in scan order.
    - TEXT values are [string]s, i.e. the UTF-8 bytes SQLite stores; TEXT is
      compared with the BINARY collation, which is [String.compare].
    - REAL values and Python [float]s are IEEE-754 binary64 numbers: the
      primitive [float] type, whose operations round to nearest even.
    - A nullable column is an [option]. *)

From Stdlib Require Import ZArith QArith List String Ascii Bool Floats.
From Stdlib Require Import Sorting.Sorted Sorting.Mergesort Permutation.
From Stdlib Require Import Orders RelationClasses Lia.
Import ListNotations.
Open Scope string_scope.
Open Scope list_scope.

Set Warnings "-inexact-float".

(** ** The store (schema of [init_db]) *)

Module Trip.
Record t := mk
  { id : Z;
    user_id : Z;
    title : string;
    start_date : string;
    end_date : string;
    daily_limit : option float;
    status : string }.
End Trip.

Module Expense.
Record t := mk
  { id : Z;
    trip_id : Z;
    user_id : Z;
    date : string;
    category : string;
    description : option string;
    amount : float;
    receipt_path : option string;
    status : string;
    created_at : string }.

(** The effect of [SET status=?] on one row. *)
Definition set_status (s : string) (e : t) : t :=
  mk (id e) (trip_id e) (user_id e) (date e) (category e) (description e)
     (amount e) (receipt_path e) s (created_at e).
End Expense.

Module Deposit.
Record t := mk
  { id : Z;
    user_id : Z;
    trip_id : option Z;
    amount : float;
    date : string;
    note : option string }.
End Deposit.

Record database := mkdb
  { trips : list Trip.t;
    expenses : list Expense.t;
    deposits : list Deposit.t }.

(** ** SQL and Python primitives used by the two helpers *)

(** [x BETWEEN lo AND hi] on TEXT. *)
Definition between (x lo hi : string) : bool :=
  (String.leb lo x && String.leb x hi)%bool.

(** Truth value of a [str | None] argument in [if start and end]. *)
Definition truthy (o : option string) : bool :=
  match o with
  | None => false
  | Some s => negb (String.eqb s "")
  end.

(** The date condition both helpers append: present only when both
    endpoints are truthy. *)
Definition period_filter (start end_ : option string) (date : string) : bool :=
  match start, end_ with
  | Some s, Some e =>
      if (truthy start && truthy end_)%bool then between date s e else true
  | _, _ => true
  end.

(** [status!='rejeitado'], appended when [include_rejected] is false. *)
Definition status_filter (include_rejected : bool) (status : string) : bool :=
  if include_rejected then true else negb (String.eqb status "rejeitado").

(** Binary64 summation from 0.0, left to right: how [SUM] accumulates the
    rows it scans, and how Python's [sum] adds a list of floats. *)
Definition float_sum (l : list float) : float :=
  fold_left PrimFloat.add l 0%float.

(** [SUM(amount)]: NULL over no rows, otherwise the rows' amounts added in
    scan order. *)
Definition sql_sum (l : list float) : option float :=
  match l with
  | [] => None
  | _ => Some (float_sum l)
  end.

(** [COALESCE(x, 0)]. *)
Definition coalesce_zero (x : option float) : float :=
  match x with
  | Some v => v
  | None => 0%float
  end.

(** [float(v or 0)]: a falsy [v] (a zero of either sign) becomes [0.0]. *)
Definition float_or_zero (v : float) : float :=
  if PrimFloat.eqb v 0%float then 0%float else v.

(** ** Balance calculator *)

Record totals := mktotals
  { t_deposits : float;
    t_expenses : float;
    t_balance : float }.

Definition where_d (user_id : Z) (start end_ : option string)
    (d : Deposit.t) : bool :=
  (Z.eqb (Deposit.user_id d) user_id
   && period_filter start end_ (Deposit.date d))%bool.

Definition where_e (user_id : Z) (start end_ : option string)
    (include_rejected : bool) (e : Expense.t) : bool :=
  (Z.eqb (Expense.user_id e) user_id
   && period_filter start end_ (Expense.date e)
   && status_filter include_rejected (Expense.status e))%bool.

Definition calc_user_totals (db : database) (user_id : Z)
    (start end_ : option string) (include_rejected : bool) : totals :=
  let total_dep :=
    coalesce_zero
      (sql_sum (map Deposit.amount
                  (filter (where_d user_id start end_) (deposits db)))) in
  let total_exp :=
    coalesce_zero
      (sql_sum (map Expense.amount
                  (filter (where_e user_id start end_ include_rejected)
                     (expenses db)))) in
  {| t_deposits := float_or_zero total_dep;
     t_expenses := float_or_zero total_exp;
     t_balance := (float_or_zero total_dep - float_or_zero total_exp)%float |}.

(** ** Statement builder *)

Module Row.
Record t := mk
  { date : string;
    type : string;
    description : string;
    trip : string;
    status : string;
    amount : float }.
End Row.

(** Rows of [trips] joined by [t.id = key]; a NULL key joins nothing. *)
Definition join_trips (ts : list Trip.t) (key : option Z) : list Trip.t :=
  match key with
  | None => []
  | Some k => filter (fun t => Z.eqb (Trip.id t) k) ts
  end.

Definition coalesce_text (x : option string) (dflt : string) : string :=
  match x with
  | Some s => s
  | None => dflt
  end.

(** First SELECT of the UNION: deposits LEFT JOIN trips. *)
Definition deposit_row (d : Deposit.t) (t : option Trip.t) : Row.t :=
  {| Row.date := Deposit.date d;
     Row.type := "Depósito";
     Row.description := coalesce_text (Deposit.note d) "";
     Row.trip := coalesce_text (option_map Trip.title t) "—";
     Row.status := "";
     Row.amount := Deposit.amount d |}.

Definition deposit_rows (ts : list Trip.t) (d : Deposit.t) : list Row.t :=
  match join_trips ts (Deposit.trip_id d) with
  | [] => [deposit_row d None]
  | joined => map (fun t => deposit_row d (Some t)) joined
  end.

(** [e.category || CASE WHEN e.description!='' THEN ' • '||e.description
    ELSE '' END]; a NULL description takes the ELSE branch. *)
Definition expense_description (e : Expense.t) : string :=
  match Expense.description e with
  | Some d =>
      if String.eqb d "" then Expense.category e
      else Expense.category e ++ " • " ++ d
  | None => Expense.category e
  end.

(** Second SELECT of the UNION: expenses (inner) JOIN trips. *)
Definition expense_row (e : Expense.t) (t : Trip.t) : Row.t :=
  {| Row.date := Expense.date e;
     Row.type := "Despesa";
     Row.description := expense_description e;
     Row.trip := coalesce_text (Some (Trip.title t)) "—";
     Row.status := Expense.status e;
     Row.amount := (- Expense.amount e)%float |}.

Definition expense_rows (ts : list Trip.t) (e : Expense.t) : list Row.t :=
  map (expense_row e) (join_trips ts (Some (Expense.trip_id e))).

(** [ORDER BY date ASC, type DESC]: [order_by a b] holds when row [a] may
    come before row [b]. *)
Module RowOrder <: TotalLeBool.
Definition t := Row.t.
Definition leb (a b : t) : bool :=
  match String.compare (Row.date a) (Row.date b) with
  | Lt => true
  | Gt => false
  | Eq =>
      match String.compare (Row.type a) (Row.type b) with
      | Lt => false
      | _ => true
      end
  end.
Theorem leb_total : forall a b, leb a b = true \/ leb b a = true.
Proof.
  intros a b. unfold leb.
  rewrite (String.compare_antisym (Row.date b) (Row.date a)).
  rewrite (String.compare_antisym (Row.type b) (Row.type a)).
  destruct (String.compare (Row.date a) (Row.date b));
    destruct (String.compare (Row.type a) (Row.type b)); simpl; auto.
Qed.
End RowOrder.

Module RowSort := Sort RowOrder.

Definition order_by : Row.t -> Row.t -> bool := RowOrder.leb.

Definition union_all (db : database) (user_id : Z)
    (start end_ : option string) (include_rejected : bool) : list Row.t :=
  flat_map (deposit_rows (trips db))
    (filter (where_d user_id start end_) (deposits db))
  ++ flat_map (expense_rows (trips db))
       (filter (where_e user_id start end_ include_rejected) (expenses db)).

Definition fetch_user_statement (db : database) (user_id : Z)
    (start end_ : option string) (include_rejected : bool) : list Row.t :=
  RowSort.sort (union_all db user_id start end_ include_rejected).

(** ** Approval workflow: the route [/admin/despesa/<int:expense_id>/<status>] *)

(** The part of the Flask session the route reads and writes; [s_flashes]
    holds the (category, message) pairs queued by [flash]. *)
Record session := mksession
  { s_user_id : option Z;
    s_role : option string;
    s_flashes : list (string * string) }.

Record world := mkworld
  { store : database;
    sess : session }.

(** Exceptions no view catches; Flask answers them with a 500. *)
Inductive exn :=
| TypeError
| ValueError
| KeyError
| IndexError
| OverflowError
| IntegrityError
| OperationalError
| OSError.

(** A Python int bound to a [?] must fit SQLite's 64-bit INTEGER, or
    [execute] raises OverflowError. *)
Definition sqlite_int (n : Z) : bool :=
  ((- 2 ^ 63 <=? n) && (n <? 2 ^ 63))%Z.

(** What a view hands back: a redirect to an endpoint, the HTTP error
    raised by [abort(code)], or an exception it lets escape. *)
Inductive outcome :=
| Redirect (endpoint : string)
| Abort (code : Z)
| Raise (e : exn).

Definition flash (message category : string) (w : world) : world :=
  {| store := store w;
     sess := {| s_user_id := s_user_id (sess w);
                s_role := s_role (sess w);
                s_flashes := s_flashes (sess w) ++ [(category, message)] |} |}.

Definition role_differs (actual : option string) (required : string) : bool :=
  match actual with
  | Some r => negb (String.eqb r required)
  | None => true
  end.

(** The decorator [login_required(role)]. *)
Definition login_required (role : option string)
    (f : world -> outcome * world) (w : world) : outcome * world :=
  match s_user_id (sess w) with
  | None => (Redirect "login", flash "Faça login para continuar." "warning" w)
  | Some _ =>
      match role with
      | Some r =>
          if (truthy role && role_differs (s_role (sess w)) r)%bool
          then (Abort 403, w)
          else f w
      | None => f w
      end
  end.

(** [status in ('aprovado', 'rejeitado', 'pendente')]. *)
Definition status_values : list string := ["aprovado"; "rejeitado"; "pendente"].

Definition status_allowed (status : string) : bool :=
  existsb (String.eqb status) status_values.

(** [UPDATE expenses SET status=? WHERE id=?]. *)
Definition update_expense_status (status : string) (expense_id : Z)
    (d : database) : database :=
  {| trips := trips d;
     expenses :=
       map (fun e => if Z.eqb (Expense.id e) expense_id
                     then Expense.set_status status e else e)
         (expenses d);
     deposits := deposits d |}.

(** The body of the view, below the decorators. The converter
    [<int:expense_id>] lets any number of digits through; [execute] raises
    OverflowError, before the flash and the redirect, on an id SQLite
    cannot bind. *)
Definition set_expense_status_view (expense_id : Z) (status : string)
    (w : world) : outcome * world :=
  if negb (status_allowed status) then (Abort 400, w)
  else if negb (sqlite_int expense_id) then (Raise OverflowError, w)
  else
    let w1 := {| store := update_expense_status status expense_id (store w);
                 sess := sess w |} in
    let w2 := flash ("Despesa marcada como " ++ status ++ ".") "success" w1 in
    (Redirect "admin_dashboard", w2).

Definition admin_set_expense_status (expense_id : Z) (status : string)
    : world -> outcome * world :=
  login_required (Some "admin") (set_expense_status_view expense_id status).

(** ** Exact values of binary64 numbers *)

Definition is_finite (x : float) : bool :=
  match Prim2SF x with
  | S754_zero _ | S754_finite _ _ _ => true
  | _ => false
  end.

(** The rational a finite binary64 number denotes (0 for infinities and
    NaN, which [is_finite] excludes where it matters). *)
Definition toQ (x : float) : Q :=
  match Prim2SF x with
  | S754_finite s m e => inject_Z (cond_Zopp s (Zpos m)) * Qpower 2 e
  | _ => 0
  end.

Definition qsum (l : list Q) : Q := fold_right Qplus 0 l.

(** The exact sum of the signed amounts of a statement. *)
Definition statement_sum (rows : list Row.t) : Q :=
  qsum (map (fun r => toQ (Row.amount r)) rows).

(** A binary64 addition or subtraction that did not round. *)
Definition exact_add (a b : float) : Prop :=
  is_finite (a + b)%float = true /\ toQ (a + b)%float == toQ a + toQ b.

Definition exact_sub (a b : float) : Prop :=
  is_finite (a - b)%float = true /\ toQ (a - b)%float == toQ a - toQ b.

(** No step of the accumulation [acc + x1 + x2 + ...] rounds. *)
Fixpoint exact_run (acc : float) (l : list float) : Prop :=
  match l with
  | [] => True
  | x :: l' => exact_add acc x /\ exact_run (acc + x)%float l'
  end.

(** * Vocabulary of the properties *)

Module Sample.
Definition trip1 : Trip.t :=
  Trip.mk 1 1 "Feira SP" "2024-01-01" "2024-01-31" (Some 0%float) "aberta".

Definition deposit (id : Z) (date : string) (amount : float) : Deposit.t :=
  Deposit.mk id 1 None amount date (Some "").

Definition expense (id trip_id : Z) (date : string) (amount : float)
    (status : string) : Expense.t :=
  Expense.mk id trip_id 1 date "Hotel" (Some "") amount (Some "") status
    "2024-01-05T12:00:00".

(** One deposit and one approved expense on the same day. *)
Definition same_day : database :=
  {| trips := [trip1];
     expenses := [expense 1 1 "2024-01-05" 40 "aprovado"];
     deposits := [deposit 1 "2024-01-05" 100] |}.

(** One approved expense of 100 and one rejected expense of 50. *)
Definition approved_and_rejected : database :=
  {| trips := [trip1];
     expenses := [expense 1 1 "2024-01-05" 100 "aprovado";
                  expense 2 1 "2024-01-06" 50 "rejeitado"];
     deposits := [deposit 1 "2024-01-02" 500] |}.

(** An expense whose [trip_id] names no row of [trips]: the schema declares
    the foreign key, but [get_db] never turns enforcement on and
    [api_expenses_create] stores the posted [trip_id] unchecked. *)
Definition dangling_trip : database :=
  {| trips := [];
     expenses := [expense 1 99 "2024-01-05" 50 "pendente"];
     deposits := [] |}.

(** Amounts 0.1, 0.3 and 0.2 as [float("0.1")] etc. store them. *)
Definition cents : database :=
  {| trips := [trip1];
     expenses := [expense 1 1 "2024-01-02" 0.3 "aprovado"];
     deposits := [deposit 1 "2024-01-01" 0.1; deposit 2 "2024-01-03" 0.2] |}.

(** One deposit of 100 and one expense stored from the text 0.1. *)
Definition rounding : database :=
  {| trips := [trip1];
     expenses := [expense 1 1 "2024-01-05" 0.1 "aprovado"];
     deposits := [deposit 1 "2024-01-02" 100] |}.

Definition admin_session : session :=
  {| s_user_id := Some 1%Z; s_role := Some "admin"; s_flashes := [] |}.

(** The admin looking at the store [same_day]. *)
Definition admin_world : world :=
  {| store := same_day; sess := admin_session |}.
End Sample.

(** The tie rule as the specification words it: among rows of one date no
    expense row comes before a deposit row. *)
Definition deposits_first (st : list Row.t) : Prop :=
  forall l1 a l2 b l3,
    st = l1 ++ a :: l2 ++ b :: l3 ->
    Row.date a = Row.date b ->
    Row.type b = "Depósito" -> Row.type a = "Depósito".

(** The tie rule of [type DESC]: among rows of one date no deposit row comes
    before an expense row. *)
Definition expenses_first (st : list Row.t) : Prop :=
  forall l1 a l2 b l3,
    st = l1 ++ a :: l2 ++ b :: l3 ->
    Row.date a = Row.date b ->
    Row.type a = "Depósito" -> Row.type b = "Depósito".

Definition date_ascending (st : list Row.t) : Prop :=
  forall l1 a l2 b l3,
    st = l1 ++ a :: l2 ++ b :: l3 ->
    String.leb (Row.date a) (Row.date b) = true.

(** The property as the specification words it: the signed amounts of the
    statement add up to the balance of the totals. The amounts are binary64
    numbers; their sum is taken exactly. *)
Definition balance_equivalence (db : database) (user_id : Z)
    (start end_ : option string) (include_rejected : bool) : Prop :=
  statement_sum (fetch_user_statement db user_id start end_ include_rejected)
  == toQ (t_balance (calc_user_totals db user_id start end_ include_rejected)).

(** [trips.id] is a key, and every selected expense refers to a trip. *)
Definition trips_resolve (db : database) (user_id : Z)
    (start end_ : option string) (include_rejected : bool) : Prop :=
  NoDup (map Trip.id (trips db))
  /\ forall e, In e (expenses db) ->
               where_e user_id start end_ include_rejected e = true ->
               exists t, In t (trips db) /\ Trip.id t = Expense.trip_id e.

(** Neither of the two [SUM]s nor the final subtraction rounds. *)
Definition no_rounding (db : database) (user_id : Z)
    (start end_ : option string) (include_rejected : bool) : Prop :=
  exact_run 0%float
    (map Deposit.amount (filter (where_d user_id start end_) (deposits db)))
  /\ exact_run 0%float
       (map Expense.amount
          (filter (where_e user_id start end_ include_rejected) (expenses db)))
  /\ exact_sub
       (t_deposits (calc_user_totals db user_id start end_ include_rejected))
       (t_expenses (calc_user_totals db user_id start end_ include_rejected)).

Definition not_rejected (e : Expense.t) : bool :=
  negb (String.eqb (Expense.status e) "rejeitado").

(** The store without its rejected expenses. *)
Definition drop_rejected (d : database) : database :=
  {| trips := trips d;
     expenses := filter not_rejected (expenses d);
     deposits := deposits d |}.

Definition is_admin (s : session) : Prop :=
  (exists uid, s_user_id s = Some uid) /\ s_role s = Some "admin".

Definition valid_target (status : string) : Prop :=
  status = "pendente" \/ status = "aprovado" \/ status = "rejeitado".

Definition zero_totals : totals :=
  {| t_deposits := 0%float; t_expenses := 0%float; t_balance := 0%float |}.

(** The property as the specification words it: the three totals are the
    exact sums of the stored amounts selected. *)
Definition totals_exact (d : database) (user_id : Z)
    (start end_ : option string) (include_rejected : bool) : Prop :=
  let t := calc_user_totals d user_id start end_ include_rejected in
  let dep :=
    qsum (map toQ (map Deposit.amount
                     (filter (where_d user_id start end_) (deposits d)))) in
  let exp :=
    qsum (map toQ (map Expense.amount
                     (filter (where_e user_id start end_ include_rejected)
                        (expenses d)))) in
  toQ (t_deposits t) == dep
  /\ toQ (t_expenses t) == exp
  /\ toQ (t_balance t) == dep - exp.

(** * Vocabulary of further properties *)

(** Whether the inner JOIN of the statement finds a trip for an expense. *)
Definition trip_exists (ts : list Trip.t) (e : Expense.t) : bool :=
  existsb (fun t => Z.eqb (Trip.id t) (Expense.trip_id e)) ts.

(** The store without the expenses of a given id. *)
Definition remove_expense (expense_id : Z) (d : database) : database :=
  {| trips := trips d;
     expenses :=
       filter (fun e => negb (Z.eqb (Expense.id e) expense_id)) (expenses d);
     deposits := deposits d |}.

Definition of_user_d (user_id : Z) (d : Deposit.t) : bool :=
  Z.eqb (Deposit.user_id d) user_id.

Definition of_user_e (user_id : Z) (e : Expense.t) : bool :=
  Z.eqb (Expense.user_id e) user_id.

(** * The rest of the application: users, trips administration *)

(** ** The [users] table and the state a web request sees *)

Module User.
Record t := mk
  { id : Z;
    name : string;
    email : string;
    role : string;
    password_hash : string;
    bank_info : option string }.
End User.

Record site := mksite
  { users : list User.t;
    site_world : world }.

(** What a view produces: a redirect, [abort(code)], a page rendered from a
    context (the template text itself is not modelled), or an exception. *)
Inductive reply (P : Type) : Type :=
| Redirected (endpoint : string)
| Aborted (code : Z)
| Rendered (context : P)
| Raised (e : exn).

Arguments Redirected {P} endpoint.
Arguments Aborted {P} code.
Arguments Rendered {P} context.
Arguments Raised {P} e.

(** [int(request.form.get(k))] and [float(request.form.get(k))]: a missing
    field gives [None] and a TypeError, text that is not a number a
    ValueError. *)
Inductive parsed (A : Type) : Type :=
| Missing
| Malformed
| Parsed (a : A).

Arguments Missing {A}.
Arguments Malformed {A}.
Arguments Parsed {A} a.

Definition flash_site (message category : string) (s : site) : site :=
  {| users := users s;
     site_world := flash message category (site_world s) |}.

Definition session_of (s : site) : session := sess (site_world s).

(** [login_required(role)] around a view of the whole state. *)
Definition login_required_site {P : Type} (role : option string)
    (f : site -> reply P * site) (s : site) : reply P * site :=
  match s_user_id (session_of s) with
  | None =>
      (Redirected "login", flash_site "Faça login para continuar." "warning" s)
  | Some _ =>
      match role with
      | Some r =>
          if (truthy role && role_differs (s_role (session_of s)) r)%bool
          then (Aborted 403, s)
          else f s
      | None => f s
      end
  end.

(** A view of the ledger and session alone, run on the whole state. *)
Definition lift_view (g : world -> outcome * world) (s : site)
    : reply unit * site :=
  let r := g (site_world s) in
  (match fst r with
   | Redirect endpoint => Redirected endpoint
   | Abort code => Aborted code
   | Raise e => Raised e
   end,
   {| users := users s; site_world := snd r |}).

(** ** [admin_delete_user] *)

(** [SELECT COUNT( * ) FROM users WHERE role='admin']. *)
Definition count_admins (us : list User.t) : nat :=
  List.length (filter (fun u => String.eqb (User.role u) "admin") us).

Definition user_by_id (us : list User.t) (user_id : Z) : option User.t :=
  find (fun u => Z.eqb (User.id u) user_id) us.

Definition admin_delete_user_view (user_id : Z) (s : site)
    : reply unit * site :=
  if match s_user_id (session_of s) with
     | Some me => Z.eqb user_id me
     | None => false
     end
  then (Redirected "admin_users",
        flash_site "Você não pode remover a si mesmo." "danger" s)
  else if negb (sqlite_int user_id) then (Raised OverflowError, s)
  else
    match user_by_id (users s) user_id with
    | None =>
        (Redirected "admin_users",
         flash_site "Usuário não encontrado." "warning" s)
    | Some user =>
        if (String.eqb (User.role user) "admin"
            && (count_admins (users s) <=? 1)%nat)%bool
        then (Redirected "admin_users",
              flash_site "Não é possível remover o último administrador."
                "danger" s)
        else
          (Redirected "admin_users",
           flash_site "Usuário removido." "success"
             {| users :=
                  filter (fun u => negb (Z.eqb (User.id u) user_id))
                    (users s);
                site_world := site_world s |})
    end.

Definition admin_delete_user (user_id : Z) : site -> reply unit * site :=
  login_required_site (Some "admin") (admin_delete_user_view user_id).

(** ** [admin_trip_reassign] *)

(** The effect of [SET user_id=?] on one row of [trips]. *)
Definition trip_set_user (user_id : Z) (t : Trip.t) : Trip.t :=
  Trip.mk (Trip.id t) user_id (Trip.title t) (Trip.start_date t)
    (Trip.end_date t) (Trip.daily_limit t) (Trip.status t).

(** [UPDATE trips SET user_id=? WHERE id=?]. *)
Definition update_trip_user (new_user_id trip_id : Z) (d : database)
    : database :=
  {| trips :=
       map (fun t => if Z.eqb (Trip.id t) trip_id
                     then trip_set_user new_user_id t else t)
         (trips d);
     expenses := expenses d;
     deposits := deposits d |}.

Definition admin_trip_reassign_view (trip_id : Z) (form_user_id : parsed Z)
    (s : site) : reply unit * site :=
  match form_user_id with
  | Missing => (Raised TypeError, s)
  | Malformed => (Raised ValueError, s)
  | Parsed new_user_id =>
      if negb (sqlite_int new_user_id) then (Raised OverflowError, s)
      else
        match user_by_id (users s) new_user_id with
        | None =>
            (Redirected "admin_trips",
             flash_site "Funcionário inválido." "danger" s)
        | Some _ =>
            if negb (sqlite_int trip_id) then (Raised OverflowError, s)
            else
              (Redirected "admin_trips",
               flash_site "Viagem reatribuída com sucesso." "success"
                 {| users := users s;
                    site_world :=
                      {| store :=
                           update_trip_user new_user_id trip_id
                             (store (site_world s));
                         sess := session_of s |} |})
        end
  end.

Definition admin_trip_reassign (trip_id : Z) (form_user_id : parsed Z)
    : site -> reply unit * site :=
  login_required_site (Some "admin")
    (admin_trip_reassign_view trip_id form_user_id).

(** ** [trip_detail] *)

(** [ORDER BY id DESC] on expenses. *)
Definition expense_id_desc (a b : Expense.t) : bool :=
  Z.leb (Expense.id b) (Expense.id a).

Lemma expense_id_desc_total (a b : Expense.t) :
  expense_id_desc a b = true \/ expense_id_desc b a = true.
Proof.
  unfold expense_id_desc.
  destruct (Z.leb_spec (Expense.id b) (Expense.id a)); [now left|].
  right. apply Z.leb_le. lia.
Qed.

Module ExpenseIdDesc <: TotalLeBool.
Definition t := Expense.t.
Definition leb := expense_id_desc.
Definition leb_total := expense_id_desc_total.
End ExpenseIdDesc.

Module ExpenseSort := Sort ExpenseIdDesc.

(** [ORDER BY date DESC] on deposits. *)
Definition deposit_date_desc (a b : Deposit.t) : bool :=
  String.leb (Deposit.date b) (Deposit.date a).

Lemma deposit_date_desc_total (a b : Deposit.t) :
  deposit_date_desc a b = true \/ deposit_date_desc b a = true.
Proof. apply String.leb_total. Qed.

Module DepositDateDesc <: TotalLeBool.
Definition t := Deposit.t.
Definition leb := deposit_date_desc.
Definition leb_total := deposit_date_desc_total.
End DepositDateDesc.

Module DepositSort := Sort DepositDateDesc.

(** The context [trip_detail] hands to its template. *)
Record trip_page := mktrip_page
  { tp_trip : Trip.t;
    tp_expenses : list Expense.t;
    tp_deposits : list Deposit.t;
    tp_total_ok : float;
    tp_user : option string }.

Definition trip_by_id (ts : list Trip.t) (trip_id : Z) : option Trip.t :=
  find (fun t => Z.eqb (Trip.id t) trip_id) ts.

Definition trip_page_of (t : Trip.t) (trip_id : Z) (s : site) : trip_page :=
  let d := store (site_world s) in
  let of_trip := filter (fun e => Z.eqb (Expense.trip_id e) trip_id)
                   (expenses d) in
  {| tp_trip := t;
     tp_expenses := ExpenseSort.sort of_trip;
     tp_deposits :=
       DepositSort.sort
         (filter (fun x => match Deposit.trip_id x with
                           | Some k => Z.eqb k trip_id
                           | None => false
                           end
                           && Z.eqb (Deposit.user_id x) (Trip.user_id t))%bool
            (deposits d));
     tp_total_ok :=
       coalesce_zero
         (sql_sum (map Expense.amount
                     (filter (fun e => Z.eqb (Expense.trip_id e) trip_id
                                       && not_rejected e)%bool
                        (expenses d))));
     tp_user := option_map User.name
                  (user_by_id (users s) (Trip.user_id t)) |}.

Definition trip_detail_view (trip_id : Z) (s : site)
    : reply trip_page * site :=
  if negb (sqlite_int trip_id) then (Raised OverflowError, s)
  else
    match trip_by_id (trips (store (site_world s))) trip_id with
    | None => (Aborted 404, s)
    | Some t =>
        if role_differs (s_role (session_of s)) "admin"
        then
          match s_user_id (session_of s) with
          | None => (Raised KeyError, s)
          | Some me =>
              if negb (Z.eqb (Trip.user_id t) me) then (Aborted 403, s)
              else (Rendered (trip_page_of t trip_id s), s)
          end
        else (Rendered (trip_page_of t trip_id s), s)
    end.

Definition trip_detail (trip_id : Z) : site -> reply trip_page * site :=
  login_required_site None (trip_detail_view trip_id).

(** ** [ext_allowed] *)

Definition ALLOWED_EXTS : list string := [".jpg"; ".jpeg"; ".png"; ".pdf"].

(** [str.lower()] on the ASCII letters. The other code points it changes
    either stay outside ASCII or become 'k' or 'i', letters no allowed
    extension contains, and none becomes '.' or '/': on every name
    [ext_allowed] answers as with the full [lower]. *)
Definition ascii_lower (c : ascii) : ascii :=
  let n := nat_of_ascii c in
  if ((65 <=? n) && (n <=? 90))%nat then ascii_of_nat (n + 32) else c.

Fixpoint lower (s : string) : string :=
  match s with
  | EmptyString => EmptyString
  | String c s' => String (ascii_lower c) (lower s')
  end.

(** [p.rfind(c)]: the index of the last [c] in [p], or -1. *)
Fixpoint rfind_from (c : ascii) (p : string) (i last : Z) : Z :=
  match p with
  | EmptyString => last
  | String a p' =>
      rfind_from c p' (i + 1) (if Ascii.eqb a c then i else last)
  end.

Definition rfind (c : ascii) (p : string) : Z := rfind_from c p 0 (-1).

(** The slices [p[:n]] and [p[n:]]. *)
Fixpoint take (n : nat) (p : string) : string :=
  match n, p with
  | S n', String a p' => String a (take n' p')
  | _, _ => EmptyString
  end.

Fixpoint drop (n : nat) (p : string) : string :=
  match n, p with
  | S n', String _ p' => drop n' p'
  | _, _ => p
  end.

(** The loop of [genericpath._splitext] that skips the leading dots of the
    last component: whether one of [p[i]], ..., [p[i+n-1]] is not a dot. *)
Fixpoint has_non_dot (p : string) (i n : nat) : bool :=
  match n with
  | O => false
  | S n' =>
      match String.get i p with
      | Some c => if Ascii.eqb c "." then has_non_dot p (S i) n' else true
      | None => true
      end
  end.

(** [os.path.splitext] of [posixpath]. *)
Definition splitext (p : string) : string * string :=
  let sepIndex := rfind "/" p in
  let dotIndex := rfind "." p in
  if (dotIndex >? sepIndex)%Z
  then
    if has_non_dot p (Z.to_nat (sepIndex + 1))
         (Z.to_nat (dotIndex - (sepIndex + 1)))
    then (take (Z.to_nat dotIndex) p, drop (Z.to_nat dotIndex) p)
    else (p, "")
  else (p, "").

Definition ext_allowed (filename : string) : bool :=
  let ext := snd (splitext (lower filename)) in
  existsb (String.eqb ext) ALLOWED_EXTS.

(** ** The token API *)

(** The dictionary [API_TOKENS], from token to user id. *)
Definition token_table := list (string * Z).

Definition dict_get (k : string) (d : token_table) : option Z :=
  option_map snd (find (fun kv => String.eqb (fst kv) k) d).

Definition dict_set (k : string) (v : Z) (d : token_table) : token_table :=
  (k, v) :: filter (fun kv => negb (String.eqb (fst kv) k)) d.

Record api_state := mkapi
  { tokens : token_table;
    api_store : database }.

(** What an API view returns: [jsonify(payload)] with a status code, or
    [jsonify({'error': e})] with one, or an exception. *)
Inductive api_reply (P : Type) : Type :=
| Json (code : Z) (payload : P)
| Json_error (code : Z) (error : string)
| Api_raised (e : exn).

Arguments Json {P} code payload.
Arguments Json_error {P} code error.
Arguments Api_raised {P} e.

(** [auth.split(' ', 1)[1]]: what follows the first space. *)
Fixpoint after_first_space (s : string) : option string :=
  match s with
  | EmptyString => None
  | String c s' => if Ascii.eqb c " " then Some s' else after_first_space s'
  end.

(** The decorator [api_auth_required]; the view receives
    [request.user_id]. *)
Definition api_auth_required {P : Type}
    (f : Z -> api_state -> api_reply P * api_state)
    (authorization : option string) (st : api_state)
    : api_reply P * api_state :=
  let auth := coalesce_text authorization "" in
  if negb (String.prefix "Bearer " auth)
  then (Json_error 401 "missing_token", st)
  else
    match after_first_space auth with
    | None => (Api_raised IndexError, st)
    | Some token =>
        match dict_get token (tokens st) with
        | None => (Json_error 401 "invalid_token", st)
        | Some uid =>
            if Z.eqb uid 0 then (Json_error 401 "invalid_token", st)
            else f uid st
        end
    end.

(** [api_expenses_list]. *)
Definition api_expenses_list_view (user_id : Z) (st : api_state)
    : api_reply (list Expense.t) * api_state :=
  if negb (sqlite_int user_id) then (Api_raised OverflowError, st)
  else
    (Json 200
       (ExpenseSort.sort
          (filter (of_user_e user_id) (expenses (api_store st)))),
     st).

Definition api_expenses_list
    : option string -> api_state -> api_reply (list Expense.t) * api_state :=
  api_auth_required api_expenses_list_view.

(** The form of [api_expenses_create]. [f_receipt] is the file name of the
    uploaded part, if there is one. *)
Record expense_form := mkform
  { f_trip_id : parsed Z;
    f_date : option string;
    f_category : option string;
    f_description : option string;
    f_amount : parsed float;
    f_receipt : option string }.

(** What the request takes from outside: the path the receipt is saved
    under ([UPLOAD_DIR] joined with the secured, uuid-prefixed name),
    whether [receipt.save] fails on it (a name too long, a full disk, a
    missing directory: [open] raises OSError), and
    [datetime.utcnow().isoformat()]. *)
Record environment := mkenv
  { saved_as : string;
    save_fails : bool;
    utcnow : string }.

(** A REAL column keeps a binary64 value, except that it keeps no
    negative zero; a NaN is bound as NULL. *)
Definition stored_real (x : float) : float :=
  if PrimFloat.eqb x 0%float then 0%float else x.

Definition is_nan (x : float) : bool := negb (PrimFloat.eqb x x).

(** The largest id in use: AUTOINCREMENT gives the next one to a new row,
    and fails when there is none left (no expense is ever deleted, so the
    largest id ever used is the largest in the table). *)
Definition last_id (es : list Expense.t) : Z :=
  fold_right (fun e m => Z.max (Expense.id e) m) 0%Z es.

Definition api_expenses_create_view (form : expense_form)
    (env : environment) (user_id : Z) (st : api_state)
    : api_reply unit * api_state :=
  match f_trip_id form with
  | Missing => (Api_raised TypeError, st)
  | Malformed => (Api_raised ValueError, st)
  | Parsed trip_id =>
      match f_amount form with
      | Missing => (Api_raised TypeError, st)
      | Malformed => (Api_raised ValueError, st)
      | Parsed amount =>
          if (truthy (f_receipt form)
              && negb (ext_allowed (coalesce_text (f_receipt form) "")))%bool
          then (Json_error 400 "file_type_not_allowed", st)
          else if (truthy (f_receipt form) && save_fails env)%bool
          then (Api_raised OSError, st)
          else
            let receipt_path :=
              if truthy (f_receipt form) then saved_as env else "" in
            if negb (sqlite_int trip_id && sqlite_int user_id)
            then (Api_raised OverflowError, st)
            else if Z.eqb (last_id (expenses (api_store st))) (2 ^ 63 - 1)
            then (Api_raised OperationalError, st)
            else
              match f_date form, f_category form with
              | Some date, Some category =>
                  if is_nan amount then (Api_raised IntegrityError, st)
                  else
                    let row :=
                      Expense.mk (last_id (expenses (api_store st)) + 1)
                        trip_id user_id date category
                        (Some (coalesce_text (f_description form) ""))
                        (stored_real amount) (Some receipt_path)
                        "pendente" (utcnow env) in
                    (Json 200 tt,
                     {| tokens := tokens st;
                        api_store :=
                          {| trips := trips (api_store st);
                             expenses := expenses (api_store st) ++ [row];
                             deposits := deposits (api_store st) |} |})
              | _, _ => (Api_raised IntegrityError, st)
              end
      end
  end.

Definition api_expenses_create (form : expense_form) (env : environment)
    : option string -> api_state -> api_reply unit * api_state :=
  api_auth_required (api_expenses_create_view form env).

(** ** The period of [profile] and [profile_statement_csv] *)

(** A [datetime.date]. *)
Module Date.
Record t := mk
  { year : nat;
    month : nat;
    day : nat }.
End Date.

Definition digit (n : nat) : ascii := ascii_of_nat (48 + n mod 10).

(** ['%02d'] and ['%04d'] on numbers below 100 and 10000. *)
Definition pad2 (n : nat) : string :=
  String (digit (n / 10)) (String (digit n) "").

Definition pad4 (n : nat) : string :=
  String (digit (n / 1000))
    (String (digit (n / 100)) (String (digit (n / 10)) (String (digit n) ""))).

(** [date.isoformat()]: YYYY-MM-DD. *)
Definition isoformat (d : Date.t) : string :=
  pad4 (Date.year d) ++ "-" ++ pad2 (Date.month d) ++ "-" ++ pad2 (Date.day d).

(** [date.replace(day=1)]. *)
Definition first_of_month (d : Date.t) : Date.t :=
  Date.mk (Date.year d) (Date.month d) 1.

(** The query string: [scope], [rej], [start] and [end] of [request.args]. *)
Record statement_query := mkquery
  { q_scope : option string;
    q_rej : option string;
    q_start : option string;
    q_end : option string }.

(** [request.args.get('rej', '0') == '1']. *)
Definition wants_rejected (q : statement_query) : bool :=
  String.eqb (coalesce_text (q_rej q) "0") "1".

(** [x] when truthy, else the default ([if not x: x = default]). *)
Definition or_default (x : option string) (default : string)
    : option string :=
  if truthy x then x else Some default.

(** The period as [profile] computes it, today being [today]. *)
Definition profile_period (q : statement_query) (today : Date.t)
    : option string * option string :=
  if String.eqb (coalesce_text (q_scope q) "month") "all"
  then (None, None)
  else (or_default (q_start q) (isoformat (first_of_month today)),
        or_default (q_end q) (isoformat today)).

(** The period as [profile_statement_csv] computes it. *)
Definition csv_period (q : statement_query) (today : Date.t)
    : option string * option string :=
  if negb (String.eqb (coalesce_text (q_scope q) "month") "all")
  then (or_default (q_start q) (isoformat (first_of_month today)),
        or_default (q_end q) (isoformat today))
  else (None, None).

(** [current_user]: the row of the session's user, [None] when there is
    no such row or no user in the session; the SELECT raises when the id
    does not fit 64 bits. *)
Definition current_user (s : site) : exn + option User.t :=
  match s_user_id (session_of s) with
  | None => inr None
  | Some uid =>
      if negb (sqlite_int uid) then inl OverflowError
      else inr (user_by_id (users s) uid)
  end.

(** The context of the profile page. *)
Record profile_page := mkprofile_page
  { pp_user : User.t;
    pp_totals : totals;
    pp_statement : list Row.t;
    pp_scope : string;
    pp_include_rejected : bool;
    pp_start : option string;
    pp_end : option string }.

(** [profile] on a GET request (on a POST it first updates the user's
    name, bank data and password and redirects). *)
Definition profile_get_view (q : statement_query) (today : Date.t)
    (s : site) : reply profile_page * site :=
  match current_user s with
  | inl e => (Raised e, s)
  | inr None => (Raised TypeError, s)
  | inr (Some user) =>
      let period := profile_period q today in
      let d := store (site_world s) in
      (Rendered
         {| pp_user := user;
            pp_totals :=
              calc_user_totals d (User.id user) (fst period) (snd period)
                (wants_rejected q);
            pp_statement :=
              fetch_user_statement d (User.id user) (fst period)
                (snd period) (wants_rejected q);
            pp_scope := coalesce_text (q_scope q) "month";
            pp_include_rejected := wants_rejected q;
            pp_start := fst period;
            pp_end := snd period |},
       s)
  end.

Definition profile_get (q : statement_query) (today : Date.t)
    : site -> reply profile_page * site :=
  login_required_site None (profile_get_view q today).

(** [name.replace(' ', '_')]. *)
Fixpoint replace_spaces (name : string) : string :=
  match name with
  | EmptyString => EmptyString
  | String c name' =>
      String (if Ascii.eqb c " " then "_"%char else c) (replace_spaces name')
  end.

(** Whether a header value holds a carriage return or a line feed;
    werkzeug's [Headers] refuses such a value with ValueError. *)
Fixpoint has_line_break (value : string) : bool :=
  match value with
  | EmptyString => false
  | String c value' =>
      (Nat.eqb (nat_of_ascii c) 10 || Nat.eqb (nat_of_ascii c) 13
       || has_line_break value')%bool
  end.

(** The response of the export: the rows written after the header row
    (the CSV text itself is not modelled) and the file name of the
    Content-Disposition header. *)
Record csv_export := mkcsv
  { ce_rows : list Row.t;
    ce_filename : string }.

(** The file name and the header built from it (lines 611-613). *)
Definition csv_filename (user : User.t) : string :=
  "extrato_" ++ replace_spaces (User.name user) ++ ".csv".

Definition content_disposition (user : User.t) : string :=
  "attachment; filename=" ++ csv_filename user.

(** [profile_statement_csv]: what the view returns. *)
Definition profile_statement_csv_view (q : statement_query) (today : Date.t)
    (s : site) : reply csv_export * site :=
  match current_user s with
  | inl e => (Raised e, s)
  | inr None => (Raised TypeError, s)
  | inr (Some user) =>
      let period := csv_period q today in
      let rows :=
        fetch_user_statement (store (site_world s)) (User.id user)
          (fst period) (snd period) (wants_rejected q) in
      if has_line_break (content_disposition user)
      then (Raised ValueError, s)
      else (Rendered {| ce_rows := rows; ce_filename := csv_filename user |},
            s)
  end.

Definition profile_statement_csv (q : statement_query) (today : Date.t)
    : site -> reply csv_export * site :=
  login_required_site None (profile_statement_csv_view q today).

(** The export that goes with an answer of the profile page: the page's
    statement under the file name of the page's user, unless that user's
    name holds a line break; a redirect or an exception as it is. *)
Definition export_of (r : reply profile_page) : reply csv_export :=
  match r with
  | Redirected endpoint => Redirected endpoint
  | Aborted code => Aborted code
  | Rendered page =>
      if has_line_break (User.name (pp_user page))
      then Raised ValueError
      else Rendered {| ce_rows := pp_statement page;
                       ce_filename := csv_filename (pp_user page) |}
  | Raised e => Raised e
  end.

(** ** [admin_dashboard] *)

(** A row of the pending list: an expense with the name of its user and
    the title of its trip. *)
Record pending_row := mkpending
  { pr_expense : Expense.t;
    pr_uname : string;
    pr_ttitle : string }.

(** [ORDER BY e.created_at ASC]. *)
Definition created_at_asc (a b : pending_row) : bool :=
  String.leb (Expense.created_at (pr_expense a))
    (Expense.created_at (pr_expense b)).

Lemma created_at_asc_total (a b : pending_row) :
  created_at_asc a b = true \/ created_at_asc b a = true.
Proof. apply String.leb_total. Qed.

Module PendingOrder <: TotalLeBool.
Definition t := pending_row.
Definition leb := created_at_asc.
Definition leb_total := created_at_asc_total.
End PendingOrder.

Module PendingSort := Sort PendingOrder.

(** [FROM expenses e JOIN users u ON u.id=e.user_id JOIN trips t ON
    t.id=e.trip_id WHERE e.status='pendente']. *)
Definition pending_rows (us : list User.t) (d : database)
    : list pending_row :=
  flat_map
    (fun e =>
       flat_map
         (fun u =>
            map (fun t => mkpending e (User.name u) (Trip.title t))
              (join_trips (trips d) (Some (Expense.trip_id e))))
         (filter (fun u => Z.eqb (User.id u) (Expense.user_id e)) us))
    (filter (fun e => String.eqb (Expense.status e) "pendente")
       (expenses d)).

(** A row of the summary by employee. *)
Record summary_row := mksummary
  { sr_uid : Z;
    sr_name : string;
    sr_total_despesas : float;
    sr_total_depositos : float }.

(** The values [SUM(CASE WHEN e.status!='rejeitado' THEN e.amount ELSE 0
    END)] adds for a user: one per expense joined, or the single 0 of the
    row the LEFT JOIN pads with NULLs. *)
Definition summary_values (user_id : Z) (d : database) : list float :=
  match filter (of_user_e user_id) (expenses d) with
  | [] => [0%float]
  | joined =>
      map (fun e => if not_rejected e then Expense.amount e else 0%float)
        joined
  end.

(** The group of one user ([users.id] being the primary key, [GROUP BY
    u.id] makes one group per user). A SUM over integer zeros only is the
    integer 0, which Python and the template treat as the float 0 here. *)
Definition summary_of (d : database) (u : User.t) : summary_row :=
  {| sr_uid := User.id u;
     sr_name := User.name u;
     sr_total_despesas :=
       coalesce_zero (sql_sum (summary_values (User.id u) d));
     sr_total_depositos :=
       coalesce_zero
         (sql_sum (map Deposit.amount
                     (filter (of_user_d (User.id u)) (deposits d)))) |}.

(** [ORDER BY u.name]. *)
Definition name_asc (a b : summary_row) : bool :=
  String.leb (sr_name a) (sr_name b).

Lemma name_asc_total (a b : summary_row) :
  name_asc a b = true \/ name_asc b a = true.
Proof. apply String.leb_total. Qed.

Module SummaryOrder <: TotalLeBool.
Definition t := summary_row.
Definition leb := name_asc.
Definition leb_total := name_asc_total.
End SummaryOrder.

Module SummarySort := Sort SummaryOrder.

(** The balance the template prints:
    [r.total_depositos - r.total_despesas]. *)
Definition sr_saldo (r : summary_row) : float :=
  (sr_total_depositos r - sr_total_despesas r)%float.

Record dashboard_page := mkdashboard
  { dp_pend : list pending_row;
    dp_totals : list summary_row }.

Definition admin_dashboard_view (s : site) : reply dashboard_page * site :=
  let d := store (site_world s) in
  (Rendered
     {| dp_pend := PendingSort.sort (pending_rows (users s) d);
        dp_totals := SummarySort.sort (map (summary_of d) (users s)) |},
   s).

Definition admin_dashboard : site -> reply dashboard_page * site :=
  login_required_site (Some "admin") admin_dashboard_view.

(** How [login_required] turns a request down: [abort(403)] with nothing
    changed, or the redirect to the login page with its flash message. *)
Definition refused {P : Type} (r : reply P * site) (s : site) : Prop :=
  r = (Aborted 403, s)
  \/ r = (Redirected "login",
          flash_site "Faça login para continuar." "warning" s).

Module SampleSite.
Definition ana : User.t :=
  User.mk 1 "Ana" "ana@rbn.local" "admin" "pbkdf2:1" (Some "").
Definition bia : User.t :=
  User.mk 2 "Bia" "bia@rbn.local" "admin" "pbkdf2:2" (Some "").
Definition caio : User.t :=
  User.mk 3 "Caio" "caio@rbn.local" "employee" "pbkdf2:3" (Some "").

(** Ana, an admin, is logged in. *)
Definition site1 : site :=
  {| users := [ana; bia; caio]; site_world := Sample.admin_world |}.

(** Caio, an employee, is logged in. *)
Definition caio_session : session :=
  {| s_user_id := Some 3%Z; s_role := Some "employee"; s_flashes := [] |}.
End SampleSite.

Module SampleApi.
Definition state : api_state :=
  {| tokens := [("3|abc|1700000000", 3%Z)];
     api_store := Sample.dangling_trip |}.

Definition form (trip_id : Z) : expense_form :=
  {| f_trip_id := Parsed trip_id;
     f_date := Some "2024-01-09";
     f_category := Some "Táxi";
     f_description := None;
     f_amount := Parsed 25%float;
     f_receipt := None |}.

Definition env : environment :=
  {| saved_as := "uploads/x_nota.pdf";
     save_fails := false;
     utcnow := "2024-01-09T10:00:00" |}.
End SampleApi.

(** * Properties *)

(** ** The BINARY collation is a total order *)

Lemma ascii_compare_refl (c : ascii) : Ascii.compare c c = Eq.
Proof. unfold Ascii.compare. apply N.compare_refl. Qed.

Lemma ascii_compare_lt_trans (a b c : ascii) :
  Ascii.compare a b = Lt -> Ascii.compare b c = Lt -> Ascii.compare a c = Lt.
Proof.
  unfold Ascii.compare. rewrite !N.compare_lt_iff. apply N.lt_trans.
Qed.

Lemma text_compare_refl (s : string) : String.compare s s = Eq.
Proof.
  induction s as [|c s IH]; simpl; [reflexivity|].
  now rewrite ascii_compare_refl.
Qed.

Lemma text_compare_eq (s1 s2 : string) :
  String.compare s1 s2 = Eq <-> s1 = s2.
Proof.
  split; [apply String.compare_eq_iff|].
  intros ->. apply text_compare_refl.
Qed.

Lemma text_compare_lt_trans (s1 s2 s3 : string) :
  String.compare s1 s2 = Lt -> String.compare s2 s3 = Lt ->
  String.compare s1 s3 = Lt.
Proof.
  revert s2 s3.
  induction s1 as [|a s1 IH]; intros [|b s2] [|c s3]; simpl;
    try discriminate; try reflexivity.
  destruct (Ascii.compare a b) eqn:Hab; try discriminate;
    destruct (Ascii.compare b c) eqn:Hbc; try discriminate; intros H1 H2.
  - apply Ascii.compare_eq_iff in Hab, Hbc. subst.
    rewrite ascii_compare_refl. eauto.
  - apply Ascii.compare_eq_iff in Hab. subst. now rewrite Hbc.
  - apply Ascii.compare_eq_iff in Hbc. subst. now rewrite Hab.
  - now rewrite (ascii_compare_lt_trans a b c).
Qed.

Lemma text_compare_gt_lt (s1 s2 : string) :
  String.compare s1 s2 = Gt <-> String.compare s2 s1 = Lt.
Proof.
  rewrite (String.compare_antisym s2 s1).
  destruct (String.compare s1 s2); simpl; split; intros H;
    try reflexivity; discriminate H.
Qed.

Lemma text_leb_trans (s1 s2 s3 : string) :
  String.leb s1 s2 = true -> String.leb s2 s3 = true ->
  String.leb s1 s3 = true.
Proof.
  unfold String.leb.
  destruct (String.compare s1 s2) eqn:H12; try discriminate;
    destruct (String.compare s2 s3) eqn:H23; try discriminate; intros _ _.
  - apply text_compare_eq in H12, H23. subst.
    now rewrite text_compare_refl.
  - apply text_compare_eq in H12. subst. now rewrite H23.
  - apply text_compare_eq in H23. subst. now rewrite H12.
  - now rewrite (text_compare_lt_trans s1 s2 s3).
Qed.

Lemma text_ltb_not_leb (s1 s2 : string) :
  String.ltb s1 s2 = true -> String.leb s2 s1 = false.
Proof.
  unfold String.ltb, String.leb. rewrite (String.compare_antisym s2 s1).
  destruct (String.compare s1 s2); simpl; congruence.
Qed.

(** An interval whose upper end is below its lower end is empty. *)
Lemma between_empty (x lo hi : string) :
  String.ltb hi lo = true -> between x lo hi = false.
Proof.
  intros H. unfold between.
  destruct (String.leb lo x) eqn:H1; [|reflexivity].
  destruct (String.leb x hi) eqn:H2; [|reflexivity].
  pose proof (text_leb_trans _ _ _ H1 H2) as H3.
  rewrite (text_ltb_not_leb _ _ H) in H3. discriminate.
Qed.

(** ** The row order of [ORDER BY date ASC, type DESC] *)

Lemma order_by_trans : Transitive (fun a b => is_true (order_by a b)).
Proof.
  intros a b c. unfold order_by, RowOrder.leb, is_true.
  destruct (String.compare (Row.date a) (Row.date b)) eqn:Dab;
    try discriminate;
    destruct (String.compare (Row.date b) (Row.date c)) eqn:Dbc;
    try discriminate.
  - apply text_compare_eq in Dab, Dbc. rewrite Dab, Dbc, text_compare_refl.
    destruct (String.compare (Row.type a) (Row.type b)) eqn:Tab;
      try discriminate;
      destruct (String.compare (Row.type b) (Row.type c)) eqn:Tbc;
      try discriminate; intros _ _.
    + apply text_compare_eq in Tab, Tbc. rewrite Tab, Tbc.
      now rewrite text_compare_refl.
    + apply text_compare_eq in Tab. now rewrite Tab, Tbc.
    + apply text_compare_eq in Tbc. now rewrite <- Tbc, Tab.
    + apply text_compare_gt_lt in Tab, Tbc.
      pose proof (text_compare_lt_trans _ _ _ Tbc Tab) as H.
      apply text_compare_gt_lt in H. now rewrite H.
  - apply text_compare_eq in Dab. now rewrite Dab, Dbc.
  - apply text_compare_eq in Dbc. now rewrite <- Dbc, Dab.
  - now rewrite (text_compare_lt_trans _ _ _ Dab Dbc).
Qed.

Lemma strongly_sorted_split {A : Type} (R : A -> A -> Prop)
    (l1 : list A) (a : A) (l2 : list A) (b : A) (l3 : list A) :
  StronglySorted R (l1 ++ a :: l2 ++ b :: l3) -> R a b.
Proof.
  induction l1 as [|x l1 IH]; simpl; intros H; inversion H; subst.
  - match goal with
    | HF : Forall _ _ |- _ => rewrite Forall_forall in HF; apply HF
    end.
    apply in_or_app. right. now left.
  - now apply IH.
Qed.

Lemma in_two_split {A : Type} (a b : A) (l : list A) :
  In a l -> In b l -> a <> b ->
  (exists l1 l2 l3, l = l1 ++ a :: l2 ++ b :: l3)
  \/ (exists l1 l2 l3, l = l1 ++ b :: l2 ++ a :: l3).
Proof.
  intros Ha Hb Hab.
  destruct (in_split _ _ Ha) as (l1 & r & ->).
  apply in_app_or in Hb. destruct Hb as [Hb | [Hb | Hb]].
  - right. destruct (in_split _ _ Hb) as (p & q & ->).
    exists p, q, r. now rewrite <- app_assoc.
  - now elim Hab.
  - left. destruct (in_split _ _ Hb) as (p & q & ->).
    now exists l1, p, q.
Qed.

(** ** What the two SELECTs of the UNION produce *)

Lemma deposit_rows_spec (ts : list Trip.t) (d : Deposit.t) (r : Row.t) :
  In r (deposit_rows ts d) ->
  Row.type r = "Depósito" /\ Row.date r = Deposit.date d
  /\ Row.status r = "" /\ Row.amount r = Deposit.amount d.
Proof.
  unfold deposit_rows.
  destruct (join_trips ts (Deposit.trip_id d)) as [|t l].
  - intros [<- | []]. now repeat split.
  - intros H. apply in_map_iff in H. destruct H as (t' & <- & _).
    now repeat split.
Qed.

Lemma deposit_rows_nonempty (ts : list Trip.t) (d : Deposit.t) :
  exists r, In r (deposit_rows ts d).
Proof.
  unfold deposit_rows.
  destruct (join_trips ts (Deposit.trip_id d)) as [|t l].
  - eexists. now left.
  - eexists. simpl. now left.
Qed.

Lemma expense_rows_spec (ts : list Trip.t) (e : Expense.t) (r : Row.t) :
  In r (expense_rows ts e) <->
  exists t, In t ts /\ Trip.id t = Expense.trip_id e /\ r = expense_row e t.
Proof.
  unfold expense_rows, join_trips. rewrite in_map_iff. split.
  - intros (t & <- & Ht). apply filter_In in Ht. destruct Ht as [Ht Hk].
    exists t. repeat split; trivial. now apply Z.eqb_eq.
  - intros (t & Ht & Hk & ->). exists t. split; trivial.
    apply filter_In. split; trivial. now apply Z.eqb_eq.
Qed.

(** ** The statement as a sorted permutation of the UNION *)

Section Statement.
Variables (db : database) (user_id : Z) (start end_ : option string).
Variable include_rejected : bool.

Let statement := fetch_user_statement db user_id start end_ include_rejected.
Let union := union_all db user_id start end_ include_rejected.

Lemma statement_strongly_sorted :
  StronglySorted (fun a b => is_true (order_by a b)) statement.
Proof.
  apply RowSort.StronglySorted_sort. exact order_by_trans.
Qed.

Lemma statement_permutation : Permutation union statement.
Proof. apply RowSort.Permuted_sort. Qed.

Lemma union_all_In (r : Row.t) :
  In r union <->
  (exists d, In d (deposits db) /\ where_d user_id start end_ d = true
             /\ In r (deposit_rows (trips db) d))
  \/ (exists e, In e (expenses db)
                /\ where_e user_id start end_ include_rejected e = true
                /\ In r (expense_rows (trips db) e)).
Proof.
  unfold union, union_all. rewrite in_app_iff, !in_flat_map.
  split; (intros [(x & Hx & Hr) | (x & Hx & Hr)]; [left | right]);
    exists x; rewrite filter_In in *; tauto.
Qed.

Lemma statement_In (r : Row.t) : In r statement <-> In r union.
Proof.
  split; apply Permutation_in;
    [apply Permutation_sym|]; apply statement_permutation.
Qed.

Lemma statement_row_type (r : Row.t) :
  In r statement -> Row.type r = "Depósito" \/ Row.type r = "Despesa".
Proof.
  rewrite statement_In, union_all_In.
  intros [(d & _ & _ & Hr) | (e & _ & _ & Hr)].
  - left. now apply deposit_rows_spec in Hr.
  - right. apply expense_rows_spec in Hr. now destruct Hr as (t & _ & _ & ->).
Qed.
End Statement.

(** ** Ordering of the statement (C2) *)

(** In the BINARY collation 'Depósito' sorts below 'Despesa': they differ
    first at the third byte, 'p' against 's'. *)
Lemma deposito_below_despesa : String.compare "Depósito" "Despesa" = Lt.
Proof. reflexivity. Qed.

(** C2, counterexample: with a deposit and an expense on 2024-01-05 the
    statement lists the expense row first, so the deposit-first tie rule
    fails. *)
Lemma statement_order_counterexample :
  fetch_user_statement Sample.same_day 1 None None false
  = [ {| Row.date := "2024-01-05"; Row.type := "Despesa";
         Row.description := "Hotel"; Row.trip := "Feira SP";
         Row.status := "aprovado"; Row.amount := (-40)%float |};
      {| Row.date := "2024-01-05"; Row.type := "Depósito";
         Row.description := ""; Row.trip := "—";
         Row.status := ""; Row.amount := 100%float |} ]
  /\ ~ deposits_first (fetch_user_statement Sample.same_day 1 None None false).
Proof.
  split; [reflexivity|].
  intros H.
  specialize (H [] _ [] _ [] eq_refl eq_refl eq_refl).
  discriminate H.
Qed.

(** C2, as amended: the statement is ordered by date ascending (TEXT
    order); among rows of the same date every expense row precedes every
    deposit row; and a selected deposit and a selected expense (whose trip
    exists) of the same date both appear, the expense row first. *)
Theorem statement_order (db : database) (user_id : Z)
    (start end_ : option string) (include_rejected : bool) :
  let st := fetch_user_statement db user_id start end_ include_rejected in
  date_ascending st
  /\ expenses_first st
  /\ forall d e t,
       In d (deposits db) -> where_d user_id start end_ d = true ->
       In e (expenses db) ->
       where_e user_id start end_ include_rejected e = true ->
       In t (trips db) -> Trip.id t = Expense.trip_id e ->
       Deposit.date d = Expense.date e ->
       exists rd l1 l2 l3,
         In rd (deposit_rows (trips db) d)
         /\ st = l1 ++ expense_row e t :: l2 ++ rd :: l3.
Proof.
  intros st.
  pose proof (statement_strongly_sorted db user_id start end_
                include_rejected) as Hs.
  fold st in Hs.
  assert (Hdate : date_ascending st).
  { intros l1 a l2 b l3 E. rewrite E in Hs.
    apply strongly_sorted_split in Hs.
    unfold is_true, order_by, RowOrder.leb in Hs. unfold String.leb.
    destruct (String.compare (Row.date a) (Row.date b)); trivial. }
  assert (Hties : expenses_first st).
  { intros l1 a l2 b l3 E Hd Ha.
    assert (Hb : In b st).
    { rewrite E. apply in_or_app. right. right.
      apply in_or_app. right. now left. }
    apply statement_row_type in Hb. destruct Hb as [Hb | Hb]; trivial.
    rewrite E in Hs. apply strongly_sorted_split in Hs.
    unfold is_true, order_by, RowOrder.leb in Hs.
    rewrite Hd, text_compare_refl, Ha, Hb, deposito_below_despesa in Hs.
    discriminate Hs. }
  repeat split; trivial.
  intros d e t Hd Wd He We Ht Hk Hdt.
  destruct (deposit_rows_nonempty (trips db) d) as (rd & Hrd).
  pose proof (deposit_rows_spec _ _ _ Hrd) as (Ty & Dt & _ & _).
  assert (Ird : In rd st).
  { apply statement_In, union_all_In. left. now exists d. }
  assert (Ire : In (expense_row e t) st).
  { apply statement_In, union_all_In. right. exists e.
    repeat split; trivial. apply expense_rows_spec. now exists t. }
  assert (Hne : rd <> expense_row e t).
  { intros ->. discriminate Ty. }
  exists rd.
  destruct (in_two_split _ _ _ Ird Ire Hne)
    as [(l1 & l2 & l3 & E) | (l1 & l2 & l3 & E)].
  - exfalso. specialize (Hties _ _ _ _ _ E).
    simpl in Hties. rewrite Dt, Hdt in Hties.
    specialize (Hties eq_refl Ty). discriminate Hties.
  - now exists l1, l2, l3.
Qed.

Lemma statement_order_witness :
  exists rd l1 l2 l3,
    In rd (deposit_rows (trips Sample.same_day)
             (Sample.deposit 1 "2024-01-05" 100))
    /\ fetch_user_statement Sample.same_day 1 None None false
       = l1 ++ expense_row (Sample.expense 1 1 "2024-01-05" 40 "aprovado")
                 Sample.trip1 :: l2 ++ rd :: l3.
Proof.
  refine (proj2 (proj2 (statement_order Sample.same_day 1 None None false))
            (Sample.deposit 1 "2024-01-05" 100)
            (Sample.expense 1 1 "2024-01-05" 40 "aprovado")
            Sample.trip1 _ _ _ _ _ _ _);
    simpl; auto; reflexivity.
Defined.

(** ** Facts about binary64 arithmetic *)

(** Case analysis on the IEEE-754 class and sign of [x], after rewriting
    the goal with the specifications of the primitive operations. *)
Ltac float_cases x :=
  change (Prim2SF 0) with (S754_zero false) in *;
  destruct (Prim2SF x) as [[|] | [|] | | [|] ? ?].

Lemma float_pos_nonneg (x : float) :
  (0 <? x)%float = true -> (0 <=? x)%float = true.
Proof.
  rewrite ltb_spec, leb_spec. float_cases x; cbv; congruence.
Qed.

Lemma float_pos_opp_nonpos (x : float) :
  (0 <? x)%float = true -> (- x <=? 0)%float = true.
Proof.
  rewrite ltb_spec, leb_spec, opp_spec. float_cases x; cbv; congruence.
Qed.

(** Negation is exact. *)
Lemma toQ_opp (x : float) : toQ (- x)%float == - toQ x.
Proof.
  unfold toQ. rewrite opp_spec.
  float_cases x; try reflexivity; unfold SFopp, negb, cond_Zopp.
  - match goal with
    | |- inject_Z (Z.pos ?m) * _ == _ =>
        change (inject_Z (- Z.pos m)) with (- inject_Z (Z.pos m));
        change (inject_Z (Z.pos m)) with (- - inject_Z (Z.pos m)) at 1
    end.
    ring.
  - match goal with
    | |- inject_Z (- Z.pos ?m) * _ == _ =>
        change (inject_Z (- Z.pos m)) with (- inject_Z (Z.pos m))
    end.
    ring.
Qed.

(** [float(v or 0)] keeps the value: it only turns -0.0 into 0.0. *)
Lemma toQ_float_or_zero (v : float) : toQ (float_or_zero v) == toQ v.
Proof.
  unfold float_or_zero.
  destruct (v =? 0)%float eqn:E; [|reflexivity].
  rewrite eqb_spec in E. unfold toQ.
  float_cases v; try reflexivity; discriminate E.
Qed.

Lemma qsum_app (l1 l2 : list Q) : qsum (l1 ++ l2) == qsum l1 + qsum l2.
Proof.
  induction l1 as [|x l1 IH]; simpl; [ring | rewrite IH; ring].
Qed.

Lemma statement_sum_app (l1 l2 : list Row.t) :
  statement_sum (l1 ++ l2) == statement_sum l1 + statement_sum l2.
Proof. unfold statement_sum. rewrite map_app. apply qsum_app. Qed.

Lemma statement_sum_perm (l1 l2 : list Row.t) :
  Permutation l1 l2 -> statement_sum l1 == statement_sum l2.
Proof.
  unfold statement_sum.
  induction 1 as [| x l l' _ IH | x y l | l l' l'' _ IH1 _ IH2]; simpl.
  - reflexivity.
  - now rewrite IH.
  - ring.
  - now rewrite IH1.
Qed.

(** The accumulation of [SUM] is exact when none of its steps rounds. *)
Lemma exact_run_sum (l : list float) (acc : float) :
  exact_run acc l ->
  toQ (fold_left PrimFloat.add l acc) == toQ acc + qsum (map toQ l).
Proof.
  revert acc. induction l as [|x l IH]; simpl; intros acc H.
  - ring.
  - destruct H as [[_ Hx] Hl]. rewrite (IH _ Hl), Hx. ring.
Qed.

Lemma toQ_zero : toQ 0%float == 0.
Proof. reflexivity. Qed.

Lemma exact_total (l : list float) :
  exact_run 0%float l ->
  toQ (float_or_zero (coalesce_zero (sql_sum l))) == qsum (map toQ l).
Proof.
  intros H. rewrite toQ_float_or_zero.
  destruct l as [|x l]; [reflexivity|].
  unfold sql_sum, coalesce_zero, float_sum.
  rewrite (exact_run_sum _ _ H), toQ_zero.
  ring.
Qed.

(** ** Sign of the statement amounts (C3) *)

(** C3: when every stored deposit and expense amount is positive, each
    deposit row of the statement has amount >= 0 and each expense row has
    amount <= 0, whatever the expense's status and the arguments. *)
Theorem sign_invariant (db : database) (user_id : Z)
    (start end_ : option string) (include_rejected : bool)
    (Hdep : forall d, In d (deposits db) ->
                      (0 <? Deposit.amount d)%float = true)
    (Hexp : forall e, In e (expenses db) ->
                      (0 <? Expense.amount e)%float = true)
    (r : Row.t) :
  In r (fetch_user_statement db user_id start end_ include_rejected) ->
  (Row.type r = "Depósito" -> (0 <=? Row.amount r)%float = true)
  /\ (Row.type r = "Despesa" -> (Row.amount r <=? 0)%float = true).
Proof.
  rewrite statement_In, union_all_In.
  intros [(d & Hd & _ & Hr) | (e & He & _ & Hr)].
  - apply deposit_rows_spec in Hr. destruct Hr as (Ty & _ & _ & Am).
    split; intros H.
    + rewrite Am. now apply float_pos_nonneg, Hdep.
    + rewrite Ty in H. discriminate H.
  - apply expense_rows_spec in Hr. destruct Hr as (t & _ & _ & ->).
    split; intros H.
    + discriminate H.
    + simpl. now apply float_pos_opp_nonpos, Hexp.
Qed.

Lemma sign_invariant_witness :
  let r := expense_row (Sample.expense 2 1 "2024-01-06" 50 "rejeitado")
             Sample.trip1 in
  (Row.type r = "Depósito" -> (0 <=? Row.amount r)%float = true)
  /\ (Row.type r = "Despesa" -> (Row.amount r <=? 0)%float = true).
Proof.
  apply (sign_invariant Sample.approved_and_rejected 1 None None true).
  - intros d [<- | []]. reflexivity.
  - intros e [<- | [<- | []]]; reflexivity.
  - vm_compute. auto.
Defined.

(** ** Statement against totals (C1) *)

Lemma join_trips_key (ts : list Trip.t) (k : Z) :
  NoDup (map Trip.id ts) ->
  join_trips ts (Some k) = []
  \/ exists t, join_trips ts (Some k) = [t].
Proof.
  simpl. induction ts as [|t ts IH]; simpl; intros H; [now left|].
  inversion H as [|? ? Hnotin Hnodup]; subst.
  destruct (Z.eqb (Trip.id t) k) eqn:E.
  - right. exists t. f_equal.
    apply Z.eqb_eq in E. subst k.
    destruct (filter (fun t0 => Z.eqb (Trip.id t0) (Trip.id t)) ts)
      as [|u l] eqn:F; trivial.
    exfalso. apply Hnotin.
    assert (Hu : In u (filter (fun t0 => Z.eqb (Trip.id t0) (Trip.id t)) ts))
      by (rewrite F; now left).
    apply filter_In in Hu. destruct Hu as [Hu Hk].
    apply Z.eqb_eq in Hk. rewrite <- Hk. now apply in_map.
  - now apply IH.
Qed.

Lemma deposit_rows_sum (ts : list Trip.t) (d : Deposit.t) :
  NoDup (map Trip.id ts) ->
  statement_sum (deposit_rows ts d) == toQ (Deposit.amount d).
Proof.
  intros H. unfold deposit_rows.
  destruct (Deposit.trip_id d) as [k|]; simpl.
  - destruct (join_trips_key ts k H) as [E | (t & E)]; simpl in E;
      rewrite E; unfold statement_sum; simpl; ring.
  - unfold statement_sum; simpl; ring.
Qed.

Lemma expense_rows_sum (ts : list Trip.t) (e : Expense.t) :
  NoDup (map Trip.id ts) ->
  (exists t, In t ts /\ Trip.id t = Expense.trip_id e) ->
  statement_sum (expense_rows ts e) == - toQ (Expense.amount e).
Proof.
  intros H (t & Ht & Hk). unfold expense_rows.
  destruct (join_trips_key ts (Expense.trip_id e) H) as [E | (u & E)].
  - exfalso.
    assert (Hin : In t (join_trips ts (Some (Expense.trip_id e)))).
    { simpl. apply filter_In. split; trivial. now apply Z.eqb_eq. }
    rewrite E in Hin. destruct Hin.
  - rewrite E. unfold statement_sum. simpl. rewrite toQ_opp. ring.
Qed.

Lemma deposits_part_sum (ts : list Trip.t) (ds : list Deposit.t) :
  NoDup (map Trip.id ts) ->
  statement_sum (flat_map (deposit_rows ts) ds)
  == qsum (map toQ (map Deposit.amount ds)).
Proof.
  intros H. induction ds as [|d ds IH]; simpl; [reflexivity|].
  rewrite statement_sum_app, IH, (deposit_rows_sum ts d H). reflexivity.
Qed.

Lemma expenses_part_sum (ts : list Trip.t) (es : list Expense.t) :
  NoDup (map Trip.id ts) ->
  (forall e, In e es -> exists t, In t ts /\ Trip.id t = Expense.trip_id e) ->
  statement_sum (flat_map (expense_rows ts) es)
  == - qsum (map toQ (map Expense.amount es)).
Proof.
  intros H. induction es as [|e es IH]; simpl; intros Hex; [reflexivity|].
  rewrite statement_sum_app, IH, (expense_rows_sum ts e H).
  - ring.
  - apply Hex. now left.
  - intros e' He'. apply Hex. now right.
Qed.

(** C1, counterexample: (1) an expense of 50 whose trip is missing is
    counted in the totals (balance -50) and absent from the statement (sum
    0); (2) with every trip present, deposits 0.1 and 0.2 around an expense
    of 0.3 give a statement whose amounts add up to 2^-55, exactly and also
    when added in binary64 in statement order, while the balance is 2^-54,
    the rounded 0.1 + 0.2 minus 0.3. *)
Lemma balance_equivalence_counterexample :
  (fetch_user_statement Sample.dangling_trip 1 None None false = []
   /\ t_balance (calc_user_totals Sample.dangling_trip 1 None None false)
      = (-50)%float
   /\ ~ balance_equivalence Sample.dangling_trip 1 None None false)
  /\ (trips_resolve Sample.cents 1 None None false
      /\ statement_sum (fetch_user_statement Sample.cents 1 None None false)
         == Qpower 2 (-55)
      /\ float_sum (map Row.amount
                      (fetch_user_statement Sample.cents 1 None None false))
         = 0x1p-55%float
      /\ t_balance (calc_user_totals Sample.cents 1 None None false)
         = 0x1p-54%float
      /\ toQ (t_balance (calc_user_totals Sample.cents 1 None None false))
         == Qpower 2 (-54)
      /\ ~ balance_equivalence Sample.cents 1 None None false).
Proof.
  split; [|split; [|split; [|split; [reflexivity|split; [reflexivity|split]]]]].
  - split; [reflexivity | split; [reflexivity|]].
    unfold balance_equivalence. vm_compute. discriminate.
  - split.
    + simpl. constructor; [intros [] | constructor].
    + intros e [<- | []] _. exists Sample.trip1. split; [now left | reflexivity].
  - vm_compute. reflexivity.
  - vm_compute. reflexivity.
  - unfold balance_equivalence. vm_compute. discriminate.
Qed.

(** C1, as amended: when [trips.id] is a key and every selected expense
    refers to an existing trip, and neither [SUM] nor the final subtraction
    rounds, the signed amounts of the statement add up to the balance. *)
Theorem balance_equivalence_exact (db : database) (user_id : Z)
    (start end_ : option string) (include_rejected : bool) :
  trips_resolve db user_id start end_ include_rejected ->
  no_rounding db user_id start end_ include_rejected ->
  balance_equivalence db user_id start end_ include_rejected.
Proof.
  intros [Hkey Hres] (Hd & He & [_ Hsub]). unfold balance_equivalence.
  rewrite <- (statement_sum_perm _ _
                (statement_permutation db user_id start end_
                   include_rejected)).
  unfold union_all.
  rewrite statement_sum_app, (deposits_part_sum _ _ Hkey).
  rewrite (expenses_part_sum _ _ Hkey).
  - unfold calc_user_totals in *. simpl in *. rewrite Hsub.
    rewrite (exact_total _ Hd), (exact_total _ He). ring.
  - intros e Hin. apply filter_In in Hin. destruct Hin as [Hin Hw].
    now apply Hres.
Qed.

Lemma balance_equivalence_exact_witness :
  balance_equivalence Sample.approved_and_rejected 1 None None true.
Proof.
  apply balance_equivalence_exact.
  - split.
    + simpl. constructor; [intros [] | constructor].
    + intros e [<- | [<- | []]] _; exists Sample.trip1;
        (split; [now left | reflexivity]).
  - vm_compute. repeat split.
Defined.

(** ** Rejected expenses (C4) *)

Lemma where_e_not_rejected (user_id : Z) (start end_ : option string)
    (e : Expense.t) :
  where_e user_id start end_ false e
  = (not_rejected e && where_e user_id start end_ true e)%bool.
Proof.
  unfold where_e, status_filter, not_rejected.
  destruct (Z.eqb (Expense.user_id e) user_id);
    destruct (period_filter start end_ (Expense.date e));
    destruct (String.eqb (Expense.status e) "rejeitado"); reflexivity.
Qed.

Lemma where_e_drop_rejected (user_id : Z) (start end_ : option string)
    (es : list Expense.t) :
  filter (where_e user_id start end_ false) es
  = filter (where_e user_id start end_ true) (filter not_rejected es).
Proof.
  induction es as [|e es IH]; simpl; trivial.
  rewrite where_e_not_rejected.
  destruct (not_rejected e); simpl; now rewrite IH.
Qed.

Lemma union_all_drop_rejected (d : database) (user_id : Z)
    (start end_ : option string) :
  union_all d user_id start end_ false
  = union_all (drop_rejected d) user_id start end_ true.
Proof.
  unfold union_all. simpl. now rewrite where_e_drop_rejected.
Qed.

(** C4: in the scenario of an approved expense of 100 and a rejected one of
    50 the expenses total is 100 without and 150 with [include_rejected];
    in general, with [include_rejected] false the statement and the totals
    are those of the store without its rejected expenses, so no row of the
    statement is rejected; the flag never changes the deposits total nor
    the deposit rows; and with [include_rejected] true every expense of the
    user in the period whose trip exists has its row, whatever its status. *)
Theorem rejection_policy :
  t_expenses (calc_user_totals Sample.approved_and_rejected 1
                (Some "2024-01-01") (Some "2024-01-31") false) = 100%float
  /\ t_expenses (calc_user_totals Sample.approved_and_rejected 1
                   (Some "2024-01-01") (Some "2024-01-31") true) = 150%float
  /\ forall (d : database) (user_id : Z) (start end_ : option string),
       fetch_user_statement d user_id start end_ false
       = fetch_user_statement (drop_rejected d) user_id start end_ true
       /\ calc_user_totals d user_id start end_ false
          = calc_user_totals (drop_rejected d) user_id start end_ true
       /\ (forall r, In r (fetch_user_statement d user_id start end_ false) ->
                     Row.status r <> "rejeitado")
       /\ t_deposits (calc_user_totals d user_id start end_ false)
          = t_deposits (calc_user_totals d user_id start end_ true)
       /\ (forall r, Row.type r = "Depósito" ->
             (In r (fetch_user_statement d user_id start end_ false)
              <-> In r (fetch_user_statement d user_id start end_ true)))
       /\ (forall e t,
             In e (expenses d) -> Expense.user_id e = user_id ->
             period_filter start end_ (Expense.date e) = true ->
             In t (trips d) -> Trip.id t = Expense.trip_id e ->
             In (expense_row e t)
               (fetch_user_statement d user_id start end_ true)).
Proof.
  split; [reflexivity | split; [reflexivity|]].
  intros d user_id start end_.
  assert (Hst : fetch_user_statement d user_id start end_ false
                = fetch_user_statement (drop_rejected d) user_id start end_
                    true).
  { unfold fetch_user_statement. now rewrite union_all_drop_rejected. }
  split; [exact Hst|].
  split.
  { unfold calc_user_totals. simpl. now rewrite where_e_drop_rejected. }
  split.
  { intros r. rewrite statement_In, union_all_In.
    intros [(x & _ & _ & Hr) | (x & _ & Hw & Hr)].
    - apply deposit_rows_spec in Hr. destruct Hr as (_ & _ & St & _).
      rewrite St. discriminate.
    - apply expense_rows_spec in Hr. destruct Hr as (t & _ & _ & ->).
      simpl. unfold where_e, status_filter in Hw.
      apply andb_prop in Hw. destruct Hw as [_ Hw].
      intros E. rewrite E in Hw. discriminate Hw. }
  split; [reflexivity|].
  split.
  { intros r Ty. rewrite !statement_In, !union_all_In.
    split; (intros [H | (x & _ & _ & Hr)]; [now left|]);
      apply expense_rows_spec in Hr; destruct Hr as (t & _ & _ & ->);
      discriminate Ty. }
  intros e t He Hu Hp Ht Hk.
  apply statement_In, union_all_In. right. exists e.
  split; [exact He|]. split.
  - unfold where_e, status_filter. rewrite Hp, andb_true_r, andb_true_r.
    now apply Z.eqb_eq.
  - apply expense_rows_spec. now exists t.
Qed.

Lemma rejection_policy_witness :
  In (expense_row (Sample.expense 2 1 "2024-01-06" 50 "rejeitado")
        Sample.trip1)
     (fetch_user_statement Sample.approved_and_rejected 1
        (Some "2024-01-01") (Some "2024-01-31") true)
  /\ ~ In (expense_row (Sample.expense 2 1 "2024-01-06" 50 "rejeitado")
             Sample.trip1)
         (fetch_user_statement Sample.approved_and_rejected 1
            (Some "2024-01-01") (Some "2024-01-31") false).
Proof.
  destruct rejection_policy as (_ & _ & H).
  destruct (H Sample.approved_and_rejected 1%Z
              (Some "2024-01-01") (Some "2024-01-31"))
    as (_ & _ & Hno & _ & _ & Hin).
  split.
  - apply Hin; simpl; auto.
  - intros Hr. apply Hno in Hr. now apply Hr.
Defined.

(** ** Approval workflow (C5, C6, C7) *)

Lemma status_allowed_spec (status : string) :
  status_allowed status = true <-> valid_target status.
Proof.
  unfold status_allowed, status_values, valid_target. simpl.
  rewrite !orb_true_iff, !String.eqb_eq. intuition congruence.
Qed.

Lemma status_not_allowed_spec (status : string) :
  status_allowed status = false <-> ~ valid_target status.
Proof.
  rewrite <- status_allowed_spec.
  destruct (status_allowed status); split; congruence.
Qed.

(** For an admin session the decorator passes the call on to the view. *)
Lemma admin_passes_login (expense_id : Z) (status : string) (w : world) :
  is_admin (sess w) ->
  admin_set_expense_status expense_id status w
  = set_expense_status_view expense_id status w.
Proof.
  intros [(uid & Hu) Hr].
  unfold admin_set_expense_status, login_required.
  now rewrite Hu, Hr.
Qed.

(** Without an admin session the view is never reached and the store is
    left as it was. *)
Lemma non_admin_refused (expense_id : Z) (status : string) (w : world) :
  s_role (sess w) <> Some "admin" ->
  (fst (admin_set_expense_status expense_id status w) = Abort 403
   \/ fst (admin_set_expense_status expense_id status w) = Redirect "login")
  /\ store (snd (admin_set_expense_status expense_id status w)) = store w.
Proof.
  intros Hr. unfold admin_set_expense_status, login_required.
  destruct (s_user_id (sess w)); [|split; [now right | reflexivity]].
  destruct (s_role (sess w)) as [r|]; simpl.
  - destruct (String.eqb r "admin") eqn:E; simpl.
    + apply String.eqb_eq in E. subst r. now elim Hr.
    + split; [now left | reflexivity].
  - split; [now left | reflexivity].
Qed.

Lemma database_eta (d : database) :
  {| trips := trips d; expenses := expenses d; deposits := deposits d |} = d.
Proof. now destruct d. Qed.

Lemma update_unknown_id (status : string) (expense_id : Z) (d : database) :
  (forall e, In e (expenses d) -> Expense.id e <> expense_id) ->
  update_expense_status status expense_id d = d.
Proof.
  intros H. unfold update_expense_status.
  rewrite <- (database_eta d) at 4. f_equal.
  rewrite <- (map_id (expenses d)) at 2.
  apply map_ext_in. intros e He.
  destruct (Z.eqb (Expense.id e) expense_id) eqn:E; trivial.
  apply Z.eqb_eq in E. now elim (H e He).
Qed.

Lemma set_status_twice (s : string) (e : Expense.t) :
  Expense.set_status s (Expense.set_status s e) = Expense.set_status s e.
Proof. reflexivity. Qed.

Lemma update_twice (status : string) (expense_id : Z) (d : database) :
  update_expense_status status expense_id
    (update_expense_status status expense_id d)
  = update_expense_status status expense_id d.
Proof.
  unfold update_expense_status. simpl. f_equal.
  rewrite map_map. apply map_ext. intros e.
  destruct (Z.eqb (Expense.id e) expense_id) eqn:E; simpl; now rewrite E.
Qed.

Lemma update_expenses_In (status : string) (expense_id : Z) (d : database)
    (e : Expense.t) :
  In e (expenses d) ->
  (Expense.id e = expense_id ->
   In (Expense.set_status status e)
     (expenses (update_expense_status status expense_id d)))
  /\ (Expense.id e <> expense_id ->
      In e (expenses (update_expense_status status expense_id d))).
Proof.
  intros He. simpl. split; intros Hid; apply in_map_iff; exists e.
  - apply Z.eqb_eq in Hid. now rewrite Hid.
  - apply Z.eqb_neq in Hid. now rewrite Hid.
Qed.

Lemma updated_status (status : string) (expense_id : Z) (d : database)
    (e : Expense.t) :
  In e (expenses (update_expense_status status expense_id d)) ->
  Expense.id e = expense_id -> Expense.status e = status.
Proof.
  simpl. intros He Hid. apply in_map_iff in He.
  destruct He as (x & Hx & _).
  destruct (Z.eqb (Expense.id x) expense_id) eqn:E.
  - now subst e.
  - subst e. apply Z.eqb_neq in E. now elim E.
Qed.

(** C5, counterexample: no expense of the store has id 7, yet the admin's
    request to approve expense 7 is answered with the success flash and the
    redirect to the dashboard, not with a not-found error. *)
Lemma unknown_expense_counterexample :
  let w := Sample.admin_world in
  (forall e, In e (expenses (store w)) -> Expense.id e <> 7%Z)
  /\ admin_set_expense_status 7 "aprovado" w
     = (Redirect "admin_dashboard",
        flash "Despesa marcada como aprovado." "success" w)
  /\ fst (admin_set_expense_status 7 "aprovado" w) <> Abort 404.
Proof.
  simpl. split; [|split].
  - intros e [<- | []]. discriminate.
  - reflexivity.
  - discriminate.
Qed.

(** C5, as amended: for an admin and a valid target, a request naming an
    expense id that is not in the store never gets a not-found error and
    leaves the store unchanged. When the id fits SQLite's 64-bit INTEGER
    it is answered like a successful one, with the success flash and the
    redirect; when it does not, the UPDATE raises OverflowError, before
    any flash or redirect. *)
Theorem unknown_expense_succeeds (w : world) (expense_id : Z)
    (status : string) :
  is_admin (sess w) -> valid_target status ->
  (forall e, In e (expenses (store w)) -> Expense.id e <> expense_id) ->
  (sqlite_int expense_id = true ->
   admin_set_expense_status expense_id status w
   = (Redirect "admin_dashboard",
      flash ("Despesa marcada como " ++ status ++ ".") "success" w))
  /\ (sqlite_int expense_id = false ->
      admin_set_expense_status expense_id status w
      = (Raise OverflowError, w))
  /\ store (snd (admin_set_expense_status expense_id status w)) = store w
  /\ fst (admin_set_expense_status expense_id status w) <> Abort 404.
Proof.
  intros Ha Hv Hid. rewrite (admin_passes_login _ _ _ Ha).
  unfold set_expense_status_view.
  apply status_allowed_spec in Hv. rewrite Hv. simpl.
  rewrite (update_unknown_id _ _ _ Hid).
  destruct (sqlite_int expense_id); simpl;
    repeat split; trivial; discriminate.
Qed.

Lemma unknown_expense_succeeds_witness :
  admin_set_expense_status 7 "rejeitado"
    Sample.admin_world
  = (Redirect "admin_dashboard",
     flash "Despesa marcada como rejeitado." "success"
       Sample.admin_world)
  /\ admin_set_expense_status (2 ^ 63) "rejeitado" Sample.admin_world
     = (Raise OverflowError, Sample.admin_world).
Proof.
  split.
  - apply (unknown_expense_succeeds Sample.admin_world 7 "rejeitado").
    + split; [now exists 1%Z | reflexivity].
    + right. now right.
    + intros e [<- | []]. discriminate.
    + reflexivity.
  - apply (unknown_expense_succeeds Sample.admin_world (2 ^ 63) "rejeitado").
    + split; [now exists 1%Z | reflexivity].
    + right. now right.
    + intros e [<- | []]. discriminate.
    + reflexivity.
Defined.

Lemma view_keeps_session (expense_id : Z) (status : string) (w : world) :
  is_admin (sess w) ->
  is_admin (sess (snd (set_expense_status_view expense_id status w))).
Proof.
  intros Ha. unfold set_expense_status_view.
  destruct (negb (status_allowed status)); [exact Ha|].
  destruct (negb (sqlite_int expense_id)); exact Ha.
Qed.

(** C6: for an admin, a valid target and an existing expense, the second
    of two identical requests is answered like the first and leaves the
    store, hence the expense, exactly as the first request left it. The id
    of an expense row fits SQLite's 64-bit INTEGER, and then both requests
    succeed, with the expense in the target status after each; the model
    also admits stores holding larger ids, on which both requests raise
    OverflowError and write nothing. *)
Theorem set_status_idempotent (w : world) (expense_id : Z) (status : string)
    (e : Expense.t) :
  is_admin (sess w) -> valid_target status ->
  In e (expenses (store w)) -> Expense.id e = expense_id ->
  let first := admin_set_expense_status expense_id status w in
  let second := admin_set_expense_status expense_id status (snd first) in
  fst second = fst first
  /\ store (snd second) = store (snd first)
  /\ (sqlite_int expense_id = true ->
      fst first = Redirect "admin_dashboard"
      /\ fst second = Redirect "admin_dashboard"
      /\ In (Expense.set_status status e) (expenses (store (snd first)))
      /\ In (Expense.set_status status e) (expenses (store (snd second))))
  /\ (sqlite_int expense_id = false ->
      first = (Raise OverflowError, w) /\ second = (Raise OverflowError, w)).
Proof.
  intros Ha Hv He Hid first second.
  assert (Hfirst : first = set_expense_status_view expense_id status w)
    by (apply admin_passes_login, Ha).
  assert (Ha' : is_admin (sess (snd first)))
    by (rewrite Hfirst; now apply view_keeps_session).
  assert (Hsecond :
            second = set_expense_status_view expense_id status (snd first))
    by (apply admin_passes_login, Ha').
  apply status_allowed_spec in Hv.
  destruct (sqlite_int expense_id) eqn:Hk.
  - assert (Hdb1 : store (snd first)
                   = update_expense_status status expense_id (store w)).
    { rewrite Hfirst. unfold set_expense_status_view. now rewrite Hv, Hk. }
    assert (Hdb2 : store (snd second) = store (snd first)).
    { rewrite Hsecond. unfold set_expense_status_view. rewrite Hv, Hk. simpl.
      rewrite Hdb1. apply update_twice. }
    assert (H1 : fst first = Redirect "admin_dashboard").
    { rewrite Hfirst. unfold set_expense_status_view. now rewrite Hv, Hk. }
    assert (H2 : fst second = Redirect "admin_dashboard").
    { rewrite Hsecond. unfold set_expense_status_view. now rewrite Hv, Hk. }
    split; [congruence|]. split; [exact Hdb2|]. split; [|discriminate].
    intros _. split; [exact H1|]. split; [exact H2|]. split.
    + rewrite Hdb1.
      exact (proj1 (update_expenses_In status expense_id (store w) e He)
               Hid).
    + rewrite Hdb2, Hdb1.
      exact (proj1 (update_expenses_In status expense_id (store w) e He)
               Hid).
  - assert (H1 : first = (Raise OverflowError, w)).
    { rewrite Hfirst. unfold set_expense_status_view. now rewrite Hv, Hk. }
    assert (H2 : second = (Raise OverflowError, w)).
    { rewrite Hsecond, H1. unfold set_expense_status_view. simpl.
      now rewrite Hv, Hk. }
    rewrite H1, H2. simpl. repeat split; trivial; discriminate.
Qed.

Lemma set_status_idempotent_witness :
  let w := Sample.admin_world in
  let first := admin_set_expense_status 1 "aprovado" w in
  let second := admin_set_expense_status 1 "aprovado" (snd first) in
  fst second = Redirect "admin_dashboard"
  /\ store (snd second) = store (snd first).
Proof.
  intros w first second.
  destruct (set_status_idempotent w 1 "aprovado"
              (Sample.expense 1 1 "2024-01-05" 40 "aprovado"))
    as (_ & H3 & H2 & _).
  - split; [now exists 1%Z | reflexivity].
  - right. now left.
  - now left.
  - reflexivity.
  - split; [exact (proj1 (proj2 (H2 eq_refl))) | exact H3].
Defined.

(** C7: for an admin, a target outside {pendente, aprovado, rejeitado} is
    answered with [abort(400)] and nothing changes, whatever the id; a
    target inside the set is written to every expense row of that id,
    whatever status the row had, the other rows and tables staying as they
    were. The ids concerned are those SQLite can hold (64 bits), as every
    id of a row is; on a larger id, which no row has, a valid target makes
    the UPDATE raise OverflowError and nothing changes. *)
Theorem set_status_validation (w : world) (expense_id : Z) (status : string) :
  is_admin (sess w) ->
  (~ valid_target status ->
   admin_set_expense_status expense_id status w = (Abort 400, w))
  /\ (valid_target status -> sqlite_int expense_id = true ->
      let w' := snd (admin_set_expense_status expense_id status w) in
      fst (admin_set_expense_status expense_id status w)
      = Redirect "admin_dashboard"
      /\ trips (store w') = trips (store w)
      /\ deposits (store w') = deposits (store w)
      /\ List.length (expenses (store w')) = List.length (expenses (store w))
      /\ (forall e, In e (expenses (store w)) ->
            (Expense.id e = expense_id ->
             In (Expense.set_status status e) (expenses (store w')))
            /\ (Expense.id e <> expense_id -> In e (expenses (store w'))))
      /\ (forall e, In e (expenses (store w')) ->
            Expense.id e = expense_id -> Expense.status e = status))
  /\ (valid_target status -> sqlite_int expense_id = false ->
      admin_set_expense_status expense_id status w
      = (Raise OverflowError, w)).
Proof.
  intros Ha. rewrite (admin_passes_login _ _ _ Ha).
  unfold set_expense_status_view. split; [|split].
  - intros Hv. apply status_not_allowed_spec in Hv. now rewrite Hv.
  - intros Hv Hk. apply status_allowed_spec in Hv. rewrite Hv, Hk. simpl.
    split; [reflexivity|]. split; [reflexivity|]. split; [reflexivity|].
    split; [apply length_map|]. split.
    + intros e He. split; intros Hid.
      * now apply (proj1 (update_expenses_In status expense_id (store w)
                            e He)).
      * now apply (proj2 (update_expenses_In status expense_id (store w)
                            e He)).
    + intros e. apply (updated_status status expense_id (store w) e).
  - intros Hv Hk. apply status_allowed_spec in Hv. now rewrite Hv, Hk.
Qed.

Lemma set_status_validation_witness :
  let w := Sample.admin_world in
  admin_set_expense_status 1 "cancelado" w = (Abort 400, w)
  /\ fst (admin_set_expense_status 1 "rejeitado" w)
     = Redirect "admin_dashboard"
  /\ admin_set_expense_status (2 ^ 63) "rejeitado" w
     = (Raise OverflowError, w).
Proof.
  intros w.
  assert (Ha : is_admin (sess w))
    by (split; [now exists 1%Z | reflexivity]).
  split; [|split].
  - apply (proj1 (set_status_validation w 1 "cancelado" Ha)).
    intros [H | [H | H]]; discriminate H.
  - apply (proj1 (proj2 (set_status_validation w 1 "rejeitado" Ha))).
    + right. now right.
    + reflexivity.
  - apply (proj2 (proj2 (set_status_validation w (2 ^ 63) "rejeitado" Ha))).
    + right. now right.
    + reflexivity.
Defined.

(** ** Period argument (C8, C10) *)

Lemma filter_none {A : Type} (f : A -> bool) (l : list A) :
  (forall x, f x = false) -> filter f l = [].
Proof.
  intros H. induction l as [|x l IH]; simpl; trivial. now rewrite H.
Qed.

Lemma reversed_period_filter (s e date : string) :
  e <> "" -> String.ltb e s = true ->
  period_filter (Some s) (Some e) date = false.
Proof.
  intros He Hlt. unfold period_filter, truthy.
  assert (Hs : String.eqb s "" = false).
  { destruct s; [|reflexivity]. destruct e; discriminate Hlt. }
  apply String.eqb_neq in He. rewrite Hs, He. simpl.
  now apply between_empty.
Qed.

(** C8, counterexample: asked for the period from 2024-01-31 back to
    2024-01-01, both helpers return a result, the zero totals and the empty
    statement, although the store has a deposit and expenses of user 1 in
    January 2024; nothing is rejected. *)
Lemma reversed_period_counterexample :
  calc_user_totals Sample.approved_and_rejected 1
    (Some "2024-01-31") (Some "2024-01-01") true = zero_totals
  /\ fetch_user_statement Sample.approved_and_rejected 1
       (Some "2024-01-31") (Some "2024-01-01") true = []
  /\ t_deposits (calc_user_totals Sample.approved_and_rejected 1
                   (Some "2024-01-01") (Some "2024-01-31") true) = 500%float.
Proof. repeat split. Qed.

(** C8, as amended: a period whose end is below its start (in TEXT order,
    both given) is accepted; it selects no row, so the totals are zero and
    the statement is empty. *)
Theorem reversed_period_selects_nothing (d : database) (user_id : Z)
    (s e : string) (include_rejected : bool) :
  e <> "" -> String.ltb e s = true ->
  calc_user_totals d user_id (Some s) (Some e) include_rejected = zero_totals
  /\ fetch_user_statement d user_id (Some s) (Some e) include_rejected = [].
Proof.
  intros He Hlt.
  assert (Hd : filter (where_d user_id (Some s) (Some e)) (deposits d) = []).
  { apply filter_none. intros x. unfold where_d.
    rewrite (reversed_period_filter _ _ _ He Hlt). apply andb_false_r. }
  assert (Hx : filter (where_e user_id (Some s) (Some e) include_rejected)
                 (expenses d) = []).
  { apply filter_none. intros x. unfold where_e.
    rewrite (reversed_period_filter _ _ _ He Hlt).
    now rewrite andb_false_r. }
  unfold calc_user_totals, fetch_user_statement, union_all.
  rewrite Hd, Hx. split; reflexivity.
Qed.

Lemma reversed_period_selects_nothing_witness :
  calc_user_totals Sample.cents 1 (Some "2024-12-31") (Some "2024-01-01")
    false = zero_totals
  /\ fetch_user_statement Sample.cents 1 (Some "2024-12-31")
       (Some "2024-01-01") false = [].
Proof.
  apply reversed_period_selects_nothing.
  - discriminate.
  - reflexivity.
Defined.

(** C10: when only one endpoint of the period is given, both helpers
    return what they return with no period at all. *)
Theorem one_sided_period_ignored (d : database) (user_id : Z)
    (include_rejected : bool) (day : string) :
  calc_user_totals d user_id (Some day) None include_rejected
  = calc_user_totals d user_id None None include_rejected
  /\ calc_user_totals d user_id None (Some day) include_rejected
     = calc_user_totals d user_id None None include_rejected
  /\ fetch_user_statement d user_id (Some day) None include_rejected
     = fetch_user_statement d user_id None None include_rejected
  /\ fetch_user_statement d user_id None (Some day) include_rejected
     = fetch_user_statement d user_id None None include_rejected.
Proof. repeat split. Qed.

(** More generally the period is ignored whenever [start and end] is
    falsy, which includes an endpoint given as the empty string. *)
Lemma falsy_period_ignored (d : database) (user_id : Z)
    (start end_ : option string) (include_rejected : bool) :
  (truthy start && truthy end_)%bool = false ->
  calc_user_totals d user_id start end_ include_rejected
  = calc_user_totals d user_id None None include_rejected
  /\ fetch_user_statement d user_id start end_ include_rejected
     = fetch_user_statement d user_id None None include_rejected.
Proof.
  intros H.
  assert (Hp : forall x, period_filter start end_ x = true).
  { intros x. unfold period_filter.
    destruct start, end_; trivial. now rewrite H. }
  assert (Hd : forall x, where_d user_id start end_ x
                         = where_d user_id None None x).
  { intros x. unfold where_d. now rewrite Hp. }
  assert (He : forall x, where_e user_id start end_ include_rejected x
                         = where_e user_id None None include_rejected x).
  { intros x. unfold where_e. now rewrite Hp. }
  unfold calc_user_totals, fetch_user_statement, union_all.
  rewrite (filter_ext _ _ Hd), (filter_ext _ _ He). split; reflexivity.
Qed.

(** A deposit dated before a lone [start] is still counted. *)
Example lone_start_does_not_filter :
  t_deposits (calc_user_totals Sample.approved_and_rejected 1
                (Some "2024-06-01") None false) = 500%float.
Proof. reflexivity. Qed.

(** ** Exactness of the totals (C9) *)

(** C9, counterexample: the amount stored for 0.1 is a binary64 number,
    not the decimal 1/10; and with a deposit of 100 and that expense the
    balance is the binary64 number 99.9, which differs from the exact
    difference of the two stored amounts. *)
Lemma totals_exact_counterexample :
  ~ toQ 0.1%float == 1 # 10
  /\ t_balance (calc_user_totals Sample.rounding 1 None None false)
     = 99.9%float
  /\ ~ toQ 99.9%float == toQ 100%float - toQ 0.1%float
  /\ ~ totals_exact Sample.rounding 1 None None false.
Proof.
  split; [vm_compute; discriminate|].
  split; [reflexivity|].
  split; [vm_compute; discriminate|].
  intros (_ & _ & H). revert H. vm_compute. discriminate.
Qed.

(** C9, as amended: amounts are binary64 numbers and the totals are
    computed in binary64; when neither of the two [SUM]s nor the final
    subtraction rounds, deposits, expenses and balance are the exact sums
    of the stored amounts selected. *)
Theorem totals_exact_without_rounding (d : database) (user_id : Z)
    (start end_ : option string) (include_rejected : bool) :
  no_rounding d user_id start end_ include_rejected ->
  totals_exact d user_id start end_ include_rejected.
Proof.
  intros (Hd & He & [_ Hsub]). unfold totals_exact.
  unfold calc_user_totals in *. simpl in *.
  rewrite Hsub, (exact_total _ Hd), (exact_total _ He).
  repeat split; reflexivity.
Qed.

Lemma totals_exact_without_rounding_witness :
  totals_exact Sample.approved_and_rejected 1 None None true.
Proof.
  apply totals_exact_without_rounding.
  vm_compute. repeat split.
Defined.

(** * Further properties of the ledger reads *)

Lemma filter_none_in {A : Type} (f : A -> bool) (l : list A) :
  (forall x, In x l -> f x = false) -> filter f l = [].
Proof.
  induction l as [|x l IH]; simpl; intros H; trivial.
  rewrite (H x (or_introl eq_refl)). apply IH. intros y Hy. apply H. now right.
Qed.

Lemma filter_andb {A : Type} (f g : A -> bool) (l : list A) :
  filter (fun x => f x && g x)%bool l = filter g (filter f l).
Proof.
  induction l as [|x l IH]; simpl; trivial.
  destruct (f x); simpl; [destruct (g x)|]; now rewrite IH.
Qed.

Lemma where_d_split (user_id : Z) (start end_ : option string)
    (l : list Deposit.t) :
  filter (where_d user_id start end_) l
  = filter (fun x => period_filter start end_ (Deposit.date x))
      (filter (of_user_d user_id) l).
Proof. unfold where_d. apply (filter_andb (of_user_d user_id)). Qed.

Lemma where_e_split (user_id : Z) (start end_ : option string)
    (include_rejected : bool) (l : list Expense.t) :
  filter (where_e user_id start end_ include_rejected) l
  = filter (fun x => status_filter include_rejected (Expense.status x))
      (filter (fun x => period_filter start end_ (Expense.date x))
         (filter (of_user_e user_id) l)).
Proof.
  unfold where_e.
  rewrite (filter_andb
             (fun x => Z.eqb (Expense.user_id x) user_id
                       && period_filter start end_ (Expense.date x))%bool).
  now rewrite (filter_andb (of_user_e user_id)).
Qed.

(** X1. A user without any deposit or expense has zero totals and an empty
    statement, whatever the period and the flag. *)
Theorem no_activity_is_empty (d : database) (user_id : Z)
    (start end_ : option string) (include_rejected : bool) :
  (forall x, In x (deposits d) -> Deposit.user_id x <> user_id) ->
  (forall x, In x (expenses d) -> Expense.user_id x <> user_id) ->
  calc_user_totals d user_id start end_ include_rejected = zero_totals
  /\ fetch_user_statement d user_id start end_ include_rejected = [].
Proof.
  intros Hd He.
  assert (Fd : filter (where_d user_id start end_) (deposits d) = []).
  { apply filter_none_in. intros x Hx. unfold where_d.
    apply Hd in Hx. apply Z.eqb_neq in Hx. now rewrite Hx. }
  assert (Fe : filter (where_e user_id start end_ include_rejected)
                 (expenses d) = []).
  { apply filter_none_in. intros x Hx. unfold where_e.
    apply He in Hx. apply Z.eqb_neq in Hx. now rewrite Hx. }
  unfold calc_user_totals, fetch_user_statement, union_all.
  rewrite Fd, Fe. split; reflexivity.
Qed.

Lemma no_activity_is_empty_witness :
  calc_user_totals Sample.same_day 2 None None true = zero_totals
  /\ fetch_user_statement Sample.same_day 2 None None true = [].
Proof.
  apply no_activity_is_empty.
  - intros x [<- | []]. discriminate.
  - intros x [<- | []]. discriminate.
Defined.

(** X2. The reads for one user depend only on that user's deposits and
    expenses and on the trips table: two stores that agree on these give
    the same totals and the same statement. *)
Theorem other_users_do_not_matter (d1 d2 : database) (user_id : Z)
    (start end_ : option string) (include_rejected : bool) :
  trips d1 = trips d2 ->
  filter (of_user_d user_id) (deposits d1)
  = filter (of_user_d user_id) (deposits d2) ->
  filter (of_user_e user_id) (expenses d1)
  = filter (of_user_e user_id) (expenses d2) ->
  calc_user_totals d1 user_id start end_ include_rejected
  = calc_user_totals d2 user_id start end_ include_rejected
  /\ fetch_user_statement d1 user_id start end_ include_rejected
     = fetch_user_statement d2 user_id start end_ include_rejected.
Proof.
  intros Ht Hd He.
  unfold calc_user_totals, fetch_user_statement, union_all.
  rewrite !where_d_split, !where_e_split, Ht, Hd, He. split; reflexivity.
Qed.

Lemma other_users_do_not_matter_witness :
  calc_user_totals Sample.same_day 1 None None false
  = calc_user_totals
      {| trips := trips Sample.same_day;
         expenses := Expense.mk 9 1 2 "2024-01-07" "Táxi" None 30 None
                       "pendente" "2024-01-07T09:00:00"
                     :: expenses Sample.same_day;
         deposits := deposits Sample.same_day |} 1 None None false.
Proof.
  apply (other_users_do_not_matter Sample.same_day _ 1 None None false);
    reflexivity.
Defined.

Lemma text_leb_refl (s : string) : String.leb s s = true.
Proof. unfold String.leb. now rewrite text_compare_refl. Qed.

Lemma period_filter_given (s e date : string) :
  s <> "" -> e <> "" ->
  period_filter (Some s) (Some e) date = between date s e.
Proof.
  intros Hs He. unfold period_filter, truthy.
  apply String.eqb_neq in Hs, He. now rewrite Hs, He.
Qed.

(** X3. With both endpoints given the period is the closed interval
    [start, end] of the TEXT order: every row of the statement is dated
    inside it, and a deposit or an expense (whose trip exists) of the user
    dated exactly at [start] or at [end] has its row in the statement. *)
Theorem period_is_closed_interval (d : database) (user_id : Z)
    (s e : string) (include_rejected : bool) :
  s <> "" -> e <> "" ->
  (forall r,
      In r (fetch_user_statement d user_id (Some s) (Some e) include_rejected)
      -> String.leb s (Row.date r) = true
         /\ String.leb (Row.date r) e = true)
  /\ (String.leb s e = true ->
      (forall x r,
          In x (deposits d) -> Deposit.user_id x = user_id ->
          Deposit.date x = s \/ Deposit.date x = e ->
          In r (deposit_rows (trips d) x) ->
          In r (fetch_user_statement d user_id (Some s) (Some e)
                  include_rejected))
      /\ (forall x t,
             In x (expenses d) -> Expense.user_id x = user_id ->
             status_filter include_rejected (Expense.status x) = true ->
             Expense.date x = s \/ Expense.date x = e ->
             In t (trips d) -> Trip.id t = Expense.trip_id x ->
             In (expense_row x t)
               (fetch_user_statement d user_id (Some s) (Some e)
                  include_rejected))).
Proof.
  intros Hs He. split.
  - intros r. rewrite statement_In, union_all_In.
    intros [(x & _ & Hw & Hr) | (x & _ & Hw & Hr)].
    + apply deposit_rows_spec in Hr. destruct Hr as (_ & -> & _).
      unfold where_d in Hw. rewrite (period_filter_given _ _ _ Hs He) in Hw.
      apply andb_prop in Hw. destruct Hw as [_ Hw].
      now apply andb_prop in Hw.
    + apply expense_rows_spec in Hr. destruct Hr as (t & _ & _ & ->).
      simpl. unfold where_e in Hw.
      rewrite (period_filter_given _ _ _ Hs He) in Hw.
      apply andb_prop in Hw. destruct Hw as [Hw _].
      apply andb_prop in Hw. destruct Hw as [_ Hw].
      now apply andb_prop in Hw.
  - intros Hle.
    assert (Hin : forall date, date = s \/ date = e ->
                               between date s e = true).
    { intros date [-> | ->]; unfold between;
        now rewrite ?text_leb_refl, ?Hle. }
    split.
    + intros x r Hx Hu Hd Hr. apply statement_In, union_all_In. left.
      exists x. repeat split; trivial. unfold where_d.
      rewrite (period_filter_given _ _ _ Hs He), (Hin _ Hd), andb_true_r.
      now apply Z.eqb_eq.
    + intros x t Hx Hu Hst Hd Ht Hk. apply statement_In, union_all_In.
      right. exists x. repeat split; trivial.
      * unfold where_e.
        rewrite (period_filter_given _ _ _ Hs He), (Hin _ Hd), Hst.
        rewrite !andb_true_r. now apply Z.eqb_eq.
      * apply expense_rows_spec. now exists t.
Qed.

Lemma period_is_closed_interval_witness :
  In (expense_row (Sample.expense 2 1 "2024-01-06" 50 "rejeitado")
        Sample.trip1)
     (fetch_user_statement Sample.approved_and_rejected 1
        (Some "2024-01-02") (Some "2024-01-06") true).
Proof.
  refine (proj2 (proj2 (period_is_closed_interval
                          Sample.approved_and_rejected 1
                          "2024-01-02" "2024-01-06" true _ _) _)
            (Sample.expense 2 1 "2024-01-06" 50 "rejeitado") Sample.trip1
            _ _ _ _ _ _);
    try discriminate; try reflexivity; simpl; auto.
Defined.

Lemma join_trips_exists (ts : list Trip.t) (e : Expense.t) :
  NoDup (map Trip.id ts) ->
  List.length (expense_rows ts e) = if trip_exists ts e then 1%nat else 0%nat.
Proof.
  intros H. unfold expense_rows. rewrite length_map.
  destruct (join_trips_key ts (Expense.trip_id e) H) as [E | (t & E)];
    rewrite E; simpl.
  - destruct (trip_exists ts e) eqn:X; trivial.
    unfold trip_exists in X. apply existsb_exists in X.
    destruct X as (t & Ht & Hk).
    assert (Hin : In t (join_trips ts (Some (Expense.trip_id e))))
      by (simpl; apply filter_In; now split).
    rewrite E in Hin. destruct Hin.
  - assert (Hin : In t (join_trips ts (Some (Expense.trip_id e))))
      by (rewrite E; now left).
    simpl in Hin. apply filter_In in Hin.
    unfold trip_exists.
    replace (existsb (fun t0 => Z.eqb (Trip.id t0) (Expense.trip_id e)) ts)
      with true; trivial.
    symmetry. apply existsb_exists. now exists t.
Qed.

Lemma deposit_rows_length (ts : list Trip.t) (d : Deposit.t) :
  NoDup (map Trip.id ts) -> List.length (deposit_rows ts d) = 1%nat.
Proof.
  intros H. unfold deposit_rows.
  destruct (Deposit.trip_id d) as [k|]; simpl; trivial.
  destruct (join_trips_key ts k H) as [E | (t & E)]; simpl in E;
    now rewrite E.
Qed.

(** X4. When [trips.id] is a key the statement has exactly one row for
    each selected deposit, whether or not its [trip_id] names a trip, and
    one row for each selected expense whose trip exists; a selected expense
    whose trip is missing has no row. *)
Theorem statement_length (d : database) (user_id : Z)
    (start end_ : option string) (include_rejected : bool) :
  NoDup (map Trip.id (trips d)) ->
  List.length (fetch_user_statement d user_id start end_ include_rejected)
  = (List.length (filter (where_d user_id start end_) (deposits d))
     + List.length
         (filter (fun x => where_e user_id start end_ include_rejected x
                           && trip_exists (trips d) x)%bool
            (expenses d)))%nat.
Proof.
  intros H.
  rewrite <- (Permutation_length
                (statement_permutation d user_id start end_
                   include_rejected)).
  unfold union_all. rewrite length_app. f_equal.
  - induction (filter (where_d user_id start end_) (deposits d))
      as [|x l IH]; simpl; trivial.
    now rewrite length_app, IH, (deposit_rows_length _ _ H).
  - induction (expenses d) as [|x l IH]; simpl; trivial.
    destruct (where_e user_id start end_ include_rejected x); simpl.
    + rewrite length_app, IH, (join_trips_exists _ _ H).
      now destruct (trip_exists (trips d) x).
    + exact IH.
Qed.

Lemma statement_length_witness :
  List.length (fetch_user_statement Sample.dangling_trip 1 None None false)
  = 0%nat.
Proof.
  rewrite statement_length; [reflexivity|]. simpl. constructor.
Defined.

(** * Status changes seen through the totals *)

Lemma update_keeps_inclusive_selection (status : string) (expense_id : Z)
    (user_id : Z) (start end_ : option string) (es : list Expense.t) :
  map Expense.amount
    (filter (where_e user_id start end_ true)
       (map (fun e => if Z.eqb (Expense.id e) expense_id
                      then Expense.set_status status e else e) es))
  = map Expense.amount (filter (where_e user_id start end_ true) es).
Proof.
  induction es as [|x es IH]; simpl; trivial.
  destruct (Z.eqb (Expense.id x) expense_id).
  - change (where_e user_id start end_ true (Expense.set_status status x))
      with (where_e user_id start end_ true x).
    destruct (where_e user_id start end_ true x); simpl; now rewrite IH.
  - destruct (where_e user_id start end_ true x); simpl; now rewrite IH.
Qed.

Lemma reject_drops_from_default_selection (expense_id : Z) (user_id : Z)
    (start end_ : option string) (es : list Expense.t) :
  filter (where_e user_id start end_ false)
    (map (fun e => if Z.eqb (Expense.id e) expense_id
                   then Expense.set_status "rejeitado" e else e) es)
  = filter (where_e user_id start end_ false)
      (filter (fun e => negb (Z.eqb (Expense.id e) expense_id)) es).
Proof.
  induction es as [|x es IH]; simpl; trivial.
  destruct (Z.eqb (Expense.id x) expense_id); simpl.
  - unfold where_e at 1. simpl. rewrite andb_false_r. exact IH.
  - now rewrite IH.
Qed.

(** X5. A status change made through the approval route (for an expense
    id that fits SQLite's 64-bit INTEGER) never changes an amount: for every
    user and period the totals that include rejected expenses are the same
    before and after, and so is the deposits total; and once an expense is
    set to 'rejeitado' the default totals are those of the store without
    that expense. *)
Theorem status_change_and_totals (w : world) (expense_id : Z)
    (status : string) (user_id : Z) (start end_ : option string) :
  is_admin (sess w) -> valid_target status ->
  sqlite_int expense_id = true ->
  let w' := snd (admin_set_expense_status expense_id status w) in
  calc_user_totals (store w') user_id start end_ true
  = calc_user_totals (store w) user_id start end_ true
  /\ t_deposits (calc_user_totals (store w') user_id start end_ false)
     = t_deposits (calc_user_totals (store w) user_id start end_ false)
  /\ (status = "rejeitado" ->
      calc_user_totals (store w') user_id start end_ false
      = calc_user_totals (remove_expense expense_id (store w))
          user_id start end_ false).
Proof.
  intros Ha Hv Hk. rewrite (admin_passes_login _ _ _ Ha).
  unfold set_expense_status_view.
  apply status_allowed_spec in Hv. rewrite Hv, Hk. simpl.
  split; [|split].
  - unfold calc_user_totals. simpl.
    now rewrite update_keeps_inclusive_selection.
  - reflexivity.
  - intros ->. unfold calc_user_totals. simpl.
    now rewrite reject_drops_from_default_selection.
Qed.

Lemma status_change_and_totals_witness :
  let w := {| store := Sample.approved_and_rejected;
              sess := Sample.admin_session |} in
  calc_user_totals
    (store (snd (admin_set_expense_status 1 "rejeitado" w))) 1 None None false
  = calc_user_totals (remove_expense 1 Sample.approved_and_rejected)
      1 None None false.
Proof.
  intros w.
  apply (status_change_and_totals w 1 "rejeitado" 1 None None).
  - split; [now exists 1%Z | reflexivity].
  - right. now right.
  - reflexivity.
  - reflexivity.
Defined.

(** * Users and trips administration *)

(** The decorator on the whole state is the decorator of the approval
    route, run on the ledger and session part. *)
Lemma login_required_site_lift (role : option string)
    (g : world -> outcome * world) (s : site) :
  login_required_site role (lift_view g) s
  = lift_view (login_required role g) s.
Proof.
  unfold login_required_site, lift_view, login_required, session_of.
  destruct (s_user_id (sess (site_world s))); [|reflexivity].
  destruct role as [r|]; [|reflexivity].
  destruct (truthy (Some r)
            && role_differs (s_role (sess (site_world s))) r)%bool;
    simpl; trivial.
  now destruct s.
Qed.

Lemma login_required_site_refuses {P : Type} (r : string)
    (f : site -> reply P * site) (s : site) :
  s_role (session_of s) <> Some r ->
  r <> "" ->
  refused (login_required_site (Some r) f s) s.
Proof.
  intros Hr Hne. unfold refused, login_required_site.
  destruct (s_user_id (session_of s)); [|now right].
  left.
  assert (T : truthy (Some r) = true)
    by (simpl; now apply negb_true_iff, String.eqb_neq).
  assert (D : role_differs (s_role (session_of s)) r = true).
  { unfold role_differs. destruct (s_role (session_of s)) as [x|]; trivial.
    apply negb_true_iff, String.eqb_neq. congruence. }
  now rewrite T, D.
Qed.

(** X6. A session whose role is not 'admin' reaches none of the admin
    routes: deleting a user, reassigning a trip, the dashboard and the
    approval route all answer 403 with the state untouched, or, when nobody
    is logged in, redirect to the login page having only queued the flash
    message. *)
Theorem admin_routes_refuse_others (s : site)
    (user_id trip_id expense_id : Z) (form_user_id : parsed Z)
    (status : string) :
  s_role (session_of s) <> Some "admin" ->
  refused (admin_delete_user user_id s) s
  /\ refused (admin_trip_reassign trip_id form_user_id s) s
  /\ refused (admin_dashboard s) s
  /\ refused (lift_view (admin_set_expense_status expense_id status) s) s.
Proof.
  intros Hr. repeat split.
  - apply login_required_site_refuses; [exact Hr | discriminate].
  - apply login_required_site_refuses; [exact Hr | discriminate].
  - apply login_required_site_refuses; [exact Hr | discriminate].
  - unfold admin_set_expense_status.
    rewrite <- login_required_site_lift.
    apply login_required_site_refuses; [exact Hr | discriminate].
Qed.

Lemma admin_routes_refuse_others_witness :
  let s := {| users := users SampleSite.site1;
              site_world := {| store := Sample.same_day;
                               sess := SampleSite.caio_session |} |} in
  refused (admin_delete_user 1 s) s
  /\ refused (admin_trip_reassign 1 (Parsed 3%Z) s) s.
Proof.
  intros s.
  destruct (admin_routes_refuse_others s 1 1 1 (Parsed 3%Z) "aprovado")
    as (H1 & H2 & _); [discriminate|].
  now split.
Defined.

Lemma filter_all_in {A : Type} (f : A -> bool) (l : list A) :
  (forall x, In x l -> f x = true) -> filter f l = l.
Proof.
  induction l as [|x l IH]; simpl; intros H; trivial.
  rewrite (H x (or_introl eq_refl)). f_equal. apply IH.
  intros y Hy. apply H. now right.
Qed.

Lemma user_by_id_spec (us : list User.t) (k : Z) (u : User.t) :
  user_by_id us k = Some u -> In u us /\ User.id u = k.
Proof.
  unfold user_by_id. intros H. apply find_some in H.
  destruct H as [H1 H2]. split; trivial. now apply Z.eqb_eq.
Qed.

Lemma count_admins_delete (us : list User.t) (k : Z) (u : User.t) :
  NoDup (map User.id us) -> user_by_id us k = Some u ->
  count_admins us
  = (count_admins (filter (fun x => negb (Z.eqb (User.id x) k)) us)
     + if String.eqb (User.role u) "admin" then 1 else 0)%nat.
Proof.
  unfold count_admins, user_by_id.
  induction us as [|x us IH]; simpl; intros Hnd Hf; [discriminate|].
  inversion Hnd as [|? ? Hnotin Hnd']; subst.
  destruct (Z.eqb (User.id x) k) eqn:E; simpl.
  - injection Hf as <-. apply Z.eqb_eq in E.
    rewrite (filter_all_in (fun y => negb (Z.eqb (User.id y) k)) us).
    + destruct (String.eqb (User.role x) "admin"); simpl; lia.
    + intros y Hy. apply negb_true_iff, Z.eqb_neq. intros Hk.
      apply Hnotin. rewrite E, <- Hk. now apply in_map.
  - specialize (IH Hnd' Hf).
    destruct (String.eqb (User.role x) "admin"); simpl; lia.
Qed.

(** X7. [admin_delete_user] never removes the last administrator: when
    [users.id] is a key and the table has an admin before the request, it
    has one after it, whoever sends the request and whatever id is named. *)
Theorem delete_user_keeps_an_admin (user_id : Z) (s : site) :
  NoDup (map User.id (users s)) ->
  (1 <= count_admins (users s))%nat ->
  (1 <= count_admins (users (snd (admin_delete_user user_id s))))%nat.
Proof.
  intros Hnd Hc.
  unfold admin_delete_user, login_required_site.
  destruct (s_user_id (session_of s)) as [me|]; [|exact Hc].
  destruct (truthy (Some "admin")
            && role_differs (s_role (session_of s)) "admin")%bool;
    [exact Hc|].
  unfold admin_delete_user_view.
  destruct (s_user_id (session_of s)) as [me'|];
    [destruct (Z.eqb user_id me'); [exact Hc|]|];
    (destruct (negb (sqlite_int user_id)); [exact Hc|];
     destruct (user_by_id (users s) user_id) as [u|] eqn:F; [|exact Hc];
     pose proof (count_admins_delete _ _ _ Hnd F) as Hcount;
     destruct (String.eqb (User.role u) "admin"); simpl;
     [destruct (Nat.leb_spec (count_admins (users s)) 1); simpl;
      [exact Hc | lia]
     | lia]).
Qed.

Lemma delete_user_keeps_an_admin_witness :
  (1 <= count_admins
          (users (snd (admin_delete_user 2 SampleSite.site1))))%nat.
Proof.
  apply delete_user_keeps_an_admin.
  - simpl. repeat constructor; simpl; intuition discriminate.
  - vm_compute. lia.
Defined.

(** X8. [admin_delete_user] removes nothing but rows of the named id, and
    none at all unless the session is an admin's and names another user:
    every other user stays, the user of the session always stays, and the
    trips, expenses and deposits of the removed user are left in place. *)
Theorem delete_user_removes_only_target (user_id : Z) (s : site) :
  let s' := snd (admin_delete_user user_id s) in
  store (site_world s') = store (site_world s)
  /\ (forall u, In u (users s') -> In u (users s))
  /\ (forall u, In u (users s) ->
        User.id u <> user_id \/ s_user_id (session_of s) = Some (User.id u)
        \/ s_role (session_of s) <> Some "admin" ->
        In u (users s')).
Proof.
  unfold admin_delete_user, login_required_site.
  destruct (s_user_id (session_of s)) as [me|] eqn:Hme;
    [|simpl; repeat split; auto].
  unfold role_differs.
  destruct (s_role (session_of s)) as [r|] eqn:Hr;
    [|simpl; repeat split; auto].
  destruct (String.eqb r "admin") eqn:Er; [|simpl; repeat split; auto].
  simpl. unfold admin_delete_user_view. rewrite Hme.
  destruct (Z.eqb user_id me) eqn:Eme; [simpl; repeat split; auto|].
  destruct (negb (sqlite_int user_id)); [simpl; repeat split; auto|].
  destruct (user_by_id (users s) user_id) as [u0|];
    [|simpl; repeat split; auto].
  destruct (String.eqb (User.role u0) "admin"
            && (count_admins (users s) <=? 1)%nat)%bool;
    [simpl; repeat split; auto|].
  simpl. repeat split.
  - intros u Hu. now apply filter_In in Hu.
  - intros u Hu Hcase. apply filter_In. split; trivial.
    apply negb_true_iff, Z.eqb_neq.
    destruct Hcase as [H | [H | H]]; trivial.
    + injection H as <-. apply Z.eqb_neq in Eme. congruence.
    + apply String.eqb_eq in Er. subst r. now elim H.
Qed.

Lemma delete_user_removes_only_target_witness :
  In SampleSite.ana (users (snd (admin_delete_user 1 SampleSite.site1)))
  /\ In SampleSite.caio (users (snd (admin_delete_user 2 SampleSite.site1))).
Proof.
  split.
  - apply (proj2 (proj2 (delete_user_removes_only_target 1 SampleSite.site1))).
    + simpl. auto.
    + right. now left.
  - apply (proj2 (proj2 (delete_user_removes_only_target 2 SampleSite.site1))).
    + simpl. auto.
    + left. discriminate.
Defined.

Lemma join_trips_set_user (new_user_id trip_id : Z) (ts : list Trip.t)
    (key : option Z) :
  join_trips
    (map (fun t => if Z.eqb (Trip.id t) trip_id
                   then trip_set_user new_user_id t else t) ts) key
  = map (fun t => if Z.eqb (Trip.id t) trip_id
                  then trip_set_user new_user_id t else t)
      (join_trips ts key).
Proof.
  destruct key as [k|]; simpl; trivial.
  induction ts as [|t ts IH]; simpl; trivial.
  assert (E : Trip.id (if Z.eqb (Trip.id t) trip_id
                       then trip_set_user new_user_id t else t)
              = Trip.id t)
    by now destruct (Z.eqb (Trip.id t) trip_id).
  rewrite E. destruct (Z.eqb (Trip.id t) k); simpl; now rewrite IH.
Qed.

Lemma union_all_reassign (new_user_id trip_id : Z) (d : database)
    (user_id : Z) (start end_ : option string) (include_rejected : bool) :
  union_all (update_trip_user new_user_id trip_id d) user_id start end_
    include_rejected
  = union_all d user_id start end_ include_rejected.
Proof.
  unfold union_all. simpl. f_equal; apply flat_map_ext; intros x.
  - unfold deposit_rows. rewrite join_trips_set_user.
    destruct (join_trips (trips d) (Deposit.trip_id x)) as [|t l]; trivial.
    cbn [map]. f_equal.
    + now destruct (Z.eqb (Trip.id t) trip_id).
    + rewrite map_map. apply map_ext. intros u.
      now destruct (Z.eqb (Trip.id u) trip_id).
  - unfold expense_rows. rewrite join_trips_set_user, map_map.
    apply map_ext. intros u. now destruct (Z.eqb (Trip.id u) trip_id).
Qed.

(** X9. Reassigning a trip never touches the ledger reads: whatever the
    request and its outcome, every user's totals and statement are the
    same after [admin_trip_reassign] as before, and the expenses and
    deposits, with their [user_id], are unchanged. In particular the
    expenses of a reassigned trip stay in the statement of the previous
    owner. *)
Theorem reassign_keeps_reads (trip_id : Z) (form_user_id : parsed Z)
    (s : site) (user_id : Z) (start end_ : option string)
    (include_rejected : bool) :
  let d := store (site_world s) in
  let d' := store (site_world
                     (snd (admin_trip_reassign trip_id form_user_id s))) in
  expenses d' = expenses d
  /\ deposits d' = deposits d
  /\ calc_user_totals d' user_id start end_ include_rejected
     = calc_user_totals d user_id start end_ include_rejected
  /\ fetch_user_statement d' user_id start end_ include_rejected
     = fetch_user_statement d user_id start end_ include_rejected.
Proof.
  unfold admin_trip_reassign, login_required_site.
  destruct (s_user_id (session_of s)); [|simpl; auto].
  destruct (truthy (Some "admin")
            && role_differs (s_role (session_of s)) "admin")%bool;
    [simpl; auto|].
  unfold admin_trip_reassign_view.
  destruct form_user_id as [| |new_user_id]; [simpl; auto..|].
  destruct (negb (sqlite_int new_user_id)); [simpl; auto|].
  destruct (user_by_id (users s) new_user_id); [|simpl; auto].
  destruct (negb (sqlite_int trip_id)); [simpl; auto|].
  simpl. repeat split.
  unfold fetch_user_statement. now rewrite union_all_reassign.
Qed.

Lemma trip_by_id_spec (ts : list Trip.t) (k : Z) (t : Trip.t) :
  trip_by_id ts k = Some t -> In t ts /\ Trip.id t = k.
Proof.
  unfold trip_by_id. intros H. apply find_some in H.
  destruct H as [H1 H2]. split; trivial. now apply Z.eqb_eq.
Qed.

(** X10. [trip_detail] shows a trip only to an admin or to the user the
    trip belongs to: whenever it renders its page, the trip is the row of
    the requested id, the session is an admin's or that of the trip's
    [user_id], the page lists only expenses of that trip, and the state is
    unchanged. *)
Theorem trip_detail_access (trip_id : Z) (s s' : site) (page : trip_page) :
  trip_detail trip_id s = (Rendered page, s') ->
  s' = s
  /\ In (tp_trip page) (trips (store (site_world s)))
  /\ Trip.id (tp_trip page) = trip_id
  /\ (s_role (session_of s) = Some "admin"
      \/ s_user_id (session_of s) = Some (Trip.user_id (tp_trip page)))
  /\ (forall e, In e (tp_expenses page) ->
                In e (expenses (store (site_world s)))
                /\ Expense.trip_id e = trip_id).
Proof.
  unfold trip_detail, login_required_site, trip_detail_view.
  destruct (s_user_id (session_of s)) as [me|] eqn:Hme; [|discriminate].
  destruct (negb (sqlite_int trip_id)); [discriminate|].
  destruct (trip_by_id (trips (store (site_world s))) trip_id) as [t|] eqn:F;
    [|discriminate].
  apply trip_by_id_spec in F. destruct F as [Hin Hid].
  assert (Hexp : forall e,
             In e (tp_expenses (trip_page_of t trip_id s)) ->
             In e (expenses (store (site_world s)))
             /\ Expense.trip_id e = trip_id).
  { intros e He. simpl in He.
    apply (Permutation_in _
             (Permutation_sym (ExpenseSort.Permuted_sort _))) in He.
    apply filter_In in He. destruct He as [He Hk].
    split; trivial. now apply Z.eqb_eq. }
  unfold role_differs.
  destruct (s_role (session_of s)) as [r|] eqn:Hr.
  - destruct (String.eqb r "admin") eqn:Er; simpl.
    + intros [= <- <-]. apply String.eqb_eq in Er. subst r.
      repeat split; auto; now apply Hexp.
    + destruct (Z.eqb (Trip.user_id t) me) eqn:Eo; simpl; [|discriminate].
      intros [= <- <-]. apply Z.eqb_eq in Eo. subst me.
      repeat split; auto; now apply Hexp.
  - simpl.
    destruct (Z.eqb (Trip.user_id t) me) eqn:Eo; simpl; [|discriminate].
    intros [= <- <-]. apply Z.eqb_eq in Eo. subst me.
    repeat split; auto; now apply Hexp.
Qed.

Lemma trip_detail_access_witness :
  s_role (session_of SampleSite.site1) = Some "admin"
  \/ s_user_id (session_of SampleSite.site1) = Some 1%Z.
Proof.
  exact (proj1 (proj2 (proj2 (proj2
           (trip_detail_access 1 SampleSite.site1 SampleSite.site1
              (trip_page_of Sample.trip1 1 SampleSite.site1)
              eq_refl))))).
Defined.

(** X11. After a trip is reassigned to another user, its previous owner, an
    employee, is refused (403) by [trip_detail], although the expenses
    filed on it remain that employee's. *)
Theorem reassigned_trip_is_closed_to_old_owner (trip_id new_user_id : Z)
    (s : site) (t : Trip.t) (old_owner : session) (me : Z) :
  is_admin (session_of s) ->
  trip_by_id (trips (store (site_world s))) trip_id = Some t ->
  user_by_id (users s) new_user_id <> None ->
  sqlite_int trip_id = true -> sqlite_int new_user_id = true ->
  s_user_id old_owner = Some me -> s_role old_owner <> Some "admin" ->
  me <> new_user_id ->
  let s1 := snd (admin_trip_reassign trip_id (Parsed new_user_id) s) in
  let s2 := {| users := users s1;
               site_world := {| store := store (site_world s1);
                                sess := old_owner |} |} in
  fst (trip_detail trip_id s2) = Aborted 403
  /\ expenses (store (site_world s2)) = expenses (store (site_world s)).
Proof.
  intros [(uid & Hu) Hr] Ht Hnew Hk Hn Hme Hrole Hne.
  unfold admin_trip_reassign, login_required_site.
  rewrite Hu, Hr. simpl.
  unfold admin_trip_reassign_view. rewrite Hn, Hk. simpl.
  destruct (user_by_id (users s) new_user_id); [|now elim Hnew].
  simpl. split; [|reflexivity].
  unfold trip_detail, login_required_site, session_of. simpl. rewrite Hme.
  unfold trip_detail_view, session_of. simpl. rewrite Hk, Hme. simpl.
  assert (F : trip_by_id
                (map (fun t0 => if Z.eqb (Trip.id t0) trip_id
                                then trip_set_user new_user_id t0 else t0)
                   (trips (store (site_world s)))) trip_id
              = Some (trip_set_user new_user_id t)).
  { revert Ht. unfold trip_by_id.
    induction (trips (store (site_world s))) as [|x l IH]; simpl;
      [discriminate|].
    destruct (Z.eqb (Trip.id x) trip_id) eqn:E; simpl.
    - rewrite E. now intros [= ->].
    - rewrite E. exact IH. }
  rewrite F. simpl.
  assert (Hd : role_differs (s_role old_owner) "admin" = true).
  { unfold role_differs. destruct (s_role old_owner) as [r|]; trivial.
    apply negb_true_iff, String.eqb_neq. congruence. }
  rewrite Hd.
  assert (Eo : Z.eqb new_user_id me = false)
    by (apply Z.eqb_neq; congruence).
  now rewrite Eo.
Qed.

Lemma reassigned_trip_is_closed_to_old_owner_witness :
  let s := {| users := users SampleSite.site1;
              site_world :=
                {| store := Sample.same_day;
                   sess := Sample.admin_session |} |} in
  let s1 := snd (admin_trip_reassign 1 (Parsed 3%Z) s) in
  let s2 := {| users := users s1;
               site_world :=
                 {| store := store (site_world s1);
                    sess := {| s_user_id := Some 1%Z;
                               s_role := Some "employee";
                               s_flashes := [] |} |} |} in
  fst (trip_detail 1 s2) = Aborted 403.
Proof.
  intros s s1 s2.
  refine (proj1 (reassigned_trip_is_closed_to_old_owner 1 3 s Sample.trip1
                   {| s_user_id := Some 1%Z; s_role := Some "employee";
                      s_flashes := [] |} 1 _ _ _ _ _ _ _ _)).
  - split; [now exists 1%Z | reflexivity].
  - reflexivity.
  - discriminate.
  - reflexivity.
  - reflexivity.
  - reflexivity.
  - discriminate.
  - discriminate.
Defined.

(** * The token API *)

Lemma bearer_prefix (auth : string) :
  String.prefix "Bearer " auth = true ->
  exists token, auth = ("Bearer " ++ token)%string
                /\ after_first_space auth = Some token.
Proof.
  intros H.
  do 7 (destruct auth as [|? auth]; simpl in H; [discriminate H|];
        match type of H with
        | (if ?c then _ else _) = true =>
            destruct c; [subst|discriminate H]
        end).
  exists auth. split; reflexivity.
Qed.

Lemma api_auth_cases {P : Type}
    (f : Z -> api_state -> api_reply P * api_state)
    (authorization : option string) (st : api_state) :
  (exists token uid,
      authorization = Some ("Bearer " ++ token)%string
      /\ dict_get token (tokens st) = Some uid /\ uid <> 0%Z
      /\ api_auth_required f authorization st = f uid st)
  \/ (exists e, api_auth_required f authorization st
                = (Json_error 401 e, st)).
Proof.
  unfold api_auth_required.
  destruct (String.prefix "Bearer " (coalesce_text authorization ""))
    eqn:Hp; simpl; [|right; eauto].
  destruct (bearer_prefix _ Hp) as (token & Ha & Ht). rewrite Ht.
  destruct (dict_get token (tokens st)) as [uid|] eqn:G; [|right; eauto].
  destruct (Z.eqb uid 0) eqn:Z0; [right; eauto|].
  left. exists token, uid. repeat split; trivial.
  - destruct authorization as [a|]; [simpl in Ha; now subst|].
    discriminate Ha.
  - now apply Z.eqb_neq.
Qed.

(** X12. [api_auth_required] runs the view exactly for a header of the
    form 'Bearer <token>' whose token the table maps to a non-zero user
    id, and then as that user; every other request is answered 401 with
    the state unchanged and the view not run. *)
Theorem api_auth_required_spec {P : Type}
    (f : Z -> api_state -> api_reply P * api_state)
    (authorization : option string) (st : api_state) :
  (exists token uid,
      authorization = Some ("Bearer " ++ token)%string
      /\ dict_get token (tokens st) = Some uid /\ uid <> 0%Z
      /\ api_auth_required f authorization st = f uid st)
  \/ (exists e, api_auth_required f authorization st
                = (Json_error 401 e, st)).
Proof. apply api_auth_cases. Qed.

Lemma dict_get_set_same (k : string) (v : Z) (d : token_table) :
  dict_get k (dict_set k v d) = Some v.
Proof. unfold dict_get, dict_set. simpl. now rewrite String.eqb_refl. Qed.

Lemma dict_get_set_other (k k' : string) (v : Z) (d : token_table) :
  k' <> k -> dict_get k' (dict_set k v d) = dict_get k' d.
Proof.
  intros Hk. unfold dict_get, dict_set. simpl.
  assert (E : String.eqb k k' = false) by (apply String.eqb_neq; congruence).
  rewrite E. f_equal.
  induction d as [|[a b] d IH]; simpl; trivial.
  destruct (String.eqb a k) eqn:Ea; simpl.
  - apply String.eqb_eq in Ea. subst a. now rewrite E.
  - destruct (String.eqb a k'); trivial.
Qed.

(** X13. Once [API_TOKENS[token] = uid] has been executed for a non-zero
    user id, a request bearing that token runs the view as [uid], and the
    table answers for every other token as it did before. *)
Theorem token_round_trip {P : Type}
    (f : Z -> api_state -> api_reply P * api_state)
    (token : string) (uid : Z) (st : api_state) :
  uid <> 0%Z ->
  let st' := {| tokens := dict_set token uid (tokens st);
                api_store := api_store st |} in
  api_auth_required f (Some ("Bearer " ++ token)%string) st' = f uid st'
  /\ forall other, other <> token ->
                   dict_get other (tokens st') = dict_get other (tokens st).
Proof.
  intros Hu st'. split.
  - unfold api_auth_required. simpl.
    assert (Hp : String.prefix "" token = true) by now destruct token.
    rewrite Hp, dict_get_set_same.
    apply Z.eqb_neq in Hu. now rewrite Hu.
  - intros other Ho. now apply dict_get_set_other.
Qed.

Lemma token_round_trip_witness :
  api_auth_required api_expenses_list_view (Some "Bearer 7|f00|1700000100")
    {| tokens := dict_set "7|f00|1700000100" 7 (tokens SampleApi.state);
       api_store := api_store SampleApi.state |}
  = api_expenses_list_view 7
      {| tokens := dict_set "7|f00|1700000100" 7 (tokens SampleApi.state);
         api_store := api_store SampleApi.state |}.
Proof.
  apply (proj1 (token_round_trip api_expenses_list_view "7|f00|1700000100" 7
                  SampleApi.state ltac:(discriminate))).
Defined.

Lemma last_id_bound (es : list Expense.t) (e : Expense.t) :
  In e es -> (Expense.id e <= last_id es)%Z.
Proof.
  induction es as [|x es IH]; simpl; intros H; [destruct H|].
  destruct H as [<- | H]; [lia|]. specialize (IH H). lia.
Qed.

Lemma api_create_inversion (form : expense_form)
    (env : environment) (authorization : option string)
    (st st' : api_state) :
  api_expenses_create form env authorization st = (Json 200 tt, st') ->
  exists token uid row,
    authorization = Some ("Bearer " ++ token)%string
    /\ dict_get token (tokens st) = Some uid
    /\ expenses (api_store st') = expenses (api_store st) ++ [row]
    /\ Expense.user_id row = uid
    /\ Expense.status row = "pendente"
    /\ f_trip_id form = Parsed (Expense.trip_id row)
    /\ (forall e, In e (expenses (api_store st)) ->
                  (Expense.id e < Expense.id row)%Z)
    /\ trips (api_store st') = trips (api_store st)
    /\ deposits (api_store st') = deposits (api_store st)
    /\ tokens st' = tokens st.
Proof.
  unfold api_expenses_create. intros H.
  destruct (api_auth_cases (api_expenses_create_view form env)
              authorization st)
    as [(token & uid & Ha & Hg & Hu & E) | (e & E)];
    rewrite E in H; [|discriminate H].
  exists token, uid. revert H. unfold api_expenses_create_view.
  destruct (f_trip_id form) as [| |trip_id]; try discriminate.
  destruct (f_amount form) as [| |amount]; try discriminate.
  destruct (truthy (f_receipt form)
            && negb (ext_allowed (coalesce_text (f_receipt form) "")))%bool;
    try discriminate.
  destruct (truthy (f_receipt form) && save_fails env)%bool;
    try discriminate.
  destruct (negb (sqlite_int trip_id && sqlite_int uid)); try discriminate.
  destruct (Z.eqb (last_id (expenses (api_store st))) (2 ^ 63 - 1));
    try discriminate.
  destruct (f_date form) as [date|]; try discriminate.
  destruct (f_category form) as [category|]; try discriminate.
  destruct (is_nan amount); try discriminate.
  intros [= <-]. eexists. simpl. repeat split; trivial.
  intros e He. apply last_id_bound in He. simpl. lia.
Qed.

(** X14. When [api_expenses_create] answers 200 it has appended exactly
    one expense: it belongs to the user of the token, is 'pendente', has a
    fresh id and carries the posted [trip_id] as it came, checked against
    nothing; trips, deposits and tokens are as before. *)
Theorem api_expenses_create_inserts (form : expense_form)
    (env : environment) (authorization : option string)
    (st st' : api_state) :
  api_expenses_create form env authorization st = (Json 200 tt, st') ->
  exists token uid row,
    authorization = Some ("Bearer " ++ token)%string
    /\ dict_get token (tokens st) = Some uid
    /\ expenses (api_store st') = expenses (api_store st) ++ [row]
    /\ Expense.user_id row = uid
    /\ Expense.status row = "pendente"
    /\ f_trip_id form = Parsed (Expense.trip_id row)
    /\ (forall e, In e (expenses (api_store st)) ->
                  (Expense.id e < Expense.id row)%Z)
    /\ trips (api_store st') = trips (api_store st)
    /\ deposits (api_store st') = deposits (api_store st)
    /\ tokens st' = tokens st.
Proof. apply api_create_inversion. Qed.

Lemma api_expenses_create_inserts_witness :
  exists token uid row,
    Some "Bearer 3|abc|1700000000" = Some ("Bearer " ++ token)%string
    /\ dict_get token (tokens SampleApi.state) = Some uid
    /\ expenses
         (api_store
            (snd (api_expenses_create (SampleApi.form 42) SampleApi.env
                    (Some "Bearer 3|abc|1700000000") SampleApi.state)))
       = expenses (api_store SampleApi.state) ++ [row]
    /\ Expense.user_id row = uid.
Proof.
  destruct (api_expenses_create_inserts (SampleApi.form 42) SampleApi.env
              (Some "Bearer 3|abc|1700000000") SampleApi.state _ eq_refl)
    as (token & uid & row & H1 & H2 & H3 & H4 & _).
  exists token, uid, row. repeat split; assumption.
Defined.

(** X15. Unless it answers 200, [api_expenses_create] leaves the tables
    and the tokens as they were: a missing or unknown token, a field that
    does not parse, a receipt of a type not allowed or that cannot be
    written, an id out of range, a missing date or category or a NaN amount
    insert nothing. *)
Theorem api_expenses_create_failure (form : expense_form)
    (env : environment) (authorization : option string) (st : api_state) :
  fst (api_expenses_create form env authorization st) <> Json 200 tt ->
  snd (api_expenses_create form env authorization st) = st.
Proof.
  unfold api_expenses_create.
  destruct (api_auth_cases (api_expenses_create_view form env)
              authorization st)
    as [(token & uid & _ & _ & _ & E) | (e & E)];
    rewrite E; [|reflexivity].
  unfold api_expenses_create_view.
  destruct (f_trip_id form) as [| |trip_id]; trivial.
  destruct (f_amount form) as [| |amount]; trivial.
  destruct (truthy (f_receipt form)
            && negb (ext_allowed (coalesce_text (f_receipt form) "")))%bool;
    trivial.
  destruct (truthy (f_receipt form) && save_fails env)%bool; trivial.
  destruct (negb (sqlite_int trip_id && sqlite_int uid)); trivial.
  destruct (Z.eqb (last_id (expenses (api_store st))) (2 ^ 63 - 1)); trivial.
  destruct (f_date form) as [date|]; trivial.
  destruct (f_category form) as [category|]; trivial.
  destruct (is_nan amount); trivial.
  simpl. intros H. now elim H.
Qed.

Lemma api_expenses_create_failure_witness :
  snd (api_expenses_create
         {| f_trip_id := Parsed 1%Z; f_date := None;
            f_category := Some "Hotel"; f_description := None;
            f_amount := Parsed 10%float; f_receipt := Some "nota.exe" |}
         SampleApi.env (Some "Bearer 3|abc|1700000000") SampleApi.state)
  = SampleApi.state.
Proof.
  apply api_expenses_create_failure. vm_compute. discriminate.
Defined.

Lemma expense_rows_without_trip (ts : list Trip.t) (e : Expense.t) :
  (forall t, In t ts -> Trip.id t <> Expense.trip_id e) ->
  expense_rows ts e = [].
Proof.
  intros H. unfold expense_rows. simpl.
  rewrite (filter_none_in _ ts); trivial.
  intros t Ht. apply Z.eqb_neq. now apply H.
Qed.

(** X16. An expense posted through the API with a [trip_id] that names no
    trip is accepted; afterwards every statement is what it was, while
    the all-time query of [calc_user_totals] selects one more expense of
    the posting user: totals and statement of that user no longer cover
    the same rows. *)
Theorem api_expense_without_trip (form : expense_form) (env : environment)
    (authorization : option string) (st st' : api_state) (trip_id : Z) :
  api_expenses_create form env authorization st = (Json 200 tt, st') ->
  f_trip_id form = Parsed trip_id ->
  (forall t, In t (trips (api_store st)) -> Trip.id t <> trip_id) ->
  (forall user_id start end_ include_rejected,
      fetch_user_statement (api_store st') user_id start end_
        include_rejected
      = fetch_user_statement (api_store st) user_id start end_
          include_rejected)
  /\ exists token uid,
       authorization = Some ("Bearer " ++ token)%string
       /\ dict_get token (tokens st) = Some uid
       /\ List.length
            (filter (where_e uid None None false)
               (expenses (api_store st')))
          = S (List.length
                 (filter (where_e uid None None false)
                    (expenses (api_store st)))).
Proof.
  intros H Hf Hno.
  destruct (api_create_inversion _ _ _ _ _ H)
    as (token & uid & row & Ha & Hg & He & Hu & Hs & Ht & _ & Htr & Hd & _).
  rewrite Hf in Ht. injection Ht as Ht.
  split.
  - intros user_id start end_ include_rejected.
    unfold fetch_user_statement, union_all.
    rewrite He, Htr, Hd, filter_app, flat_map_app.
    replace (flat_map (expense_rows (trips (api_store st)))
               (filter (where_e user_id start end_ include_rejected) [row]))
      with (@nil Row.t); [now rewrite app_nil_r|].
    simpl. destruct (where_e user_id start end_ include_rejected row);
      trivial.
    simpl. rewrite expense_rows_without_trip; trivial.
    intros t Hin. rewrite <- Ht. now apply Hno.
  - exists token, uid. repeat split; trivial.
    rewrite He, filter_app, length_app. simpl.
    unfold where_e at 2. rewrite Hu, Hs, Z.eqb_refl. simpl. lia.
Qed.

Lemma api_expense_without_trip_witness :
  fetch_user_statement
    (api_store
       (snd (api_expenses_create (SampleApi.form 42) SampleApi.env
               (Some "Bearer 3|abc|1700000000") SampleApi.state)))
    3 None None false
  = fetch_user_statement (api_store SampleApi.state) 3 None None false.
Proof.
  refine (proj1 (api_expense_without_trip (SampleApi.form 42) SampleApi.env
                   (Some "Bearer 3|abc|1700000000") SampleApi.state _ 42
                   eq_refl eq_refl _) 3%Z None None false).
  intros t [].
Defined.

(** * [ext_allowed] *)

Lemma text_append_empty (p : string) : (p ++ "")%string = p.
Proof. induction p as [|a p IH]; simpl; trivial. now rewrite IH. Qed.

Lemma take_drop (n : nat) (p : string) : (take n p ++ drop n p)%string = p.
Proof.
  revert p. induction n as [|n IH]; intros [|a p]; simpl; trivial.
  now rewrite IH.
Qed.

Lemma rfind_from_lower_bound (c : ascii) (p : string) (i last : Z) :
  (-1 <= last)%Z -> (0 <= i)%Z -> (-1 <= rfind_from c p i last)%Z.
Proof.
  revert i last. induction p as [|a p IH]; simpl; intros i last Hl Hi;
    trivial.
  apply IH; [|lia]. destruct (Ascii.eqb a c); lia.
Qed.

Lemma has_non_dot_positive (p : string) (i n : nat) :
  has_non_dot p i n = true -> (0 < n)%nat.
Proof. destruct n; simpl; [discriminate | lia]. Qed.

(** [splitext] cuts the path in two, and cuts off an extension only after
    a non-empty root. *)
Lemma splitext_join (p : string) :
  (fst (splitext p) ++ snd (splitext p))%string = p
  /\ (snd (splitext p) <> "" -> fst (splitext p) <> "").
Proof.
  unfold splitext.
  destruct (rfind "." p >? rfind "/" p)%Z eqn:E;
    [|simpl; split; [apply text_append_empty | congruence]].
  destruct (has_non_dot p (Z.to_nat (rfind "/" p + 1))
              (Z.to_nat (rfind "." p - (rfind "/" p + 1)))) eqn:N;
    [|simpl; split; [apply text_append_empty | congruence]].
  simpl. split; [apply take_drop|]. intros _.
  apply has_non_dot_positive in N.
  assert (Hs : (-1 <= rfind "/" p)%Z)
    by (apply rfind_from_lower_bound; lia).
  assert (Hd : (1 <= rfind "." p)%Z) by lia.
  destruct p as [|a p]; [unfold rfind in Hd; simpl in Hd; lia|].
  destruct (Z.to_nat (rfind "." (String a p))) eqn:T; [lia|].
  simpl. discriminate.
Qed.

(** X17. [ext_allowed] accepts a file name only if, in lower case, it is a
    non-empty root followed by one of '.jpg', '.jpeg', '.png', '.pdf'. *)
Theorem ext_allowed_sound (filename : string) :
  ext_allowed filename = true ->
  exists root ext,
    lower filename = (root ++ ext)%string
    /\ In ext ALLOWED_EXTS /\ root <> "".
Proof.
  unfold ext_allowed. intros H. apply existsb_exists in H.
  destruct H as (ext & Hin & He). apply String.eqb_eq in He.
  destruct (splitext_join (lower filename)) as [Hj Hr].
  exists (fst (splitext (lower filename))), ext.
  rewrite <- He at 1. rewrite Hj. repeat split; trivial.
  apply Hr. rewrite He. intros ->.
  simpl in Hin. intuition discriminate.
Qed.

Lemma ext_allowed_sound_witness :
  exists root ext,
    lower "Nota Fiscal.PDF" = (root ++ ext)%string
    /\ In ext ALLOWED_EXTS /\ root <> "".
Proof. apply ext_allowed_sound. reflexivity. Defined.

(** * The period of the profile page and of its CSV export *)

Lemma or_default_truthy (x : option string) (default : string) :
  default <> "" ->
  exists s, or_default x default = Some s /\ s <> "".
Proof.
  intros Hd. unfold or_default.
  destruct (truthy x) eqn:T; [|now exists default].
  destruct x as [s|]; [|discriminate T].
  exists s. split; trivial. simpl in T.
  now apply String.eqb_neq, negb_true_iff.
Qed.

Lemma isoformat_not_empty (d : Date.t) : isoformat d <> "".
Proof. unfold isoformat, pad4. simpl. discriminate. Qed.

Lemma period_cases (q : statement_query) (today : Date.t) :
  csv_period q today = profile_period q today
  /\ (profile_period q today = (None, None)
      \/ exists s e,
           profile_period q today = (Some s, Some e)
           /\ s <> "" /\ e <> "").
Proof.
  unfold csv_period, profile_period.
  destruct (String.eqb (coalesce_text (q_scope q) "month") "all");
    simpl; split; trivial; [now left|]. right.
  destruct (or_default_truthy (q_start q) _
              (isoformat_not_empty (first_of_month today)))
    as (s & -> & Hs).
  destruct (or_default_truthy (q_end q) _ (isoformat_not_empty today))
    as (e & -> & He).
  now exists s, e.
Qed.

(** X18. [profile] and [profile_statement_csv] compute the same period
    from the same query, and it is either no period at all or a period
    with both endpoints given: the helpers are never called with one
    endpoint only. *)
Theorem period_both_or_none (q : statement_query) (today : Date.t) :
  csv_period q today = profile_period q today
  /\ (profile_period q today = (None, None)
      \/ exists s e,
           profile_period q today = (Some s, Some e)
           /\ s <> "" /\ e <> "").
Proof. apply period_cases. Qed.

Lemma text_compare_prefix (p a b : string) :
  String.compare (p ++ a) (p ++ b) = String.compare a b.
Proof.
  induction p as [|c p IH]; simpl; trivial.
  now rewrite ascii_compare_refl.
Qed.

Lemma pad2_first_day (d : nat) :
  (1 <= d <= 31)%nat -> String.leb (pad2 1) (pad2 d) = true.
Proof.
  intros [H1 H2].
  do 32 (destruct d as [|d]; [try lia; reflexivity|]). lia.
Qed.

(** X19. Without [start] and [end] in the query, and a scope other than
    'all', the period is the current month up to today: it runs from the
    first of the month to today's date, in that order, and today lies in
    it. *)
Theorem default_period_is_month_to_date (q : statement_query)
    (today : Date.t) :
  coalesce_text (q_scope q) "month" <> "all" ->
  truthy (q_start q) = false -> truthy (q_end q) = false ->
  (1 <= Date.day today <= 31)%nat ->
  profile_period q today
  = (Some (isoformat (first_of_month today)), Some (isoformat today))
  /\ String.leb (isoformat (first_of_month today)) (isoformat today) = true
  /\ between (isoformat today) (isoformat (first_of_month today))
       (isoformat today) = true.
Proof.
  intros Hscope Hs He Hday.
  assert (Hle : String.leb (isoformat (first_of_month today))
                  (isoformat today) = true).
  { unfold String.leb, isoformat, first_of_month. simpl Date.year.
    simpl Date.month. simpl Date.day.
    rewrite !text_compare_prefix.
    apply (pad2_first_day _ Hday). }
  split; [|split; trivial].
  - unfold profile_period, or_default.
    apply String.eqb_neq in Hscope. now rewrite Hscope, Hs, He.
  - unfold between. now rewrite Hle, text_leb_refl.
Qed.

Lemma default_period_is_month_to_date_witness :
  profile_period
    {| q_scope := None; q_rej := None; q_start := Some ""; q_end := None |}
    (Date.mk 2024 3 7)
  = (Some "2024-03-01", Some "2024-03-07").
Proof.
  apply (default_period_is_month_to_date
           {| q_scope := None; q_rej := None; q_start := Some "";
              q_end := None |} (Date.mk 2024 3 7));
    try reflexivity; [discriminate | simpl; lia].
Defined.

Lemma has_line_break_app (a b : string) :
  has_line_break (a ++ b) = (has_line_break a || has_line_break b)%bool.
Proof.
  induction a as [|c a IH]; simpl; trivial.
  rewrite IH. now rewrite !orb_assoc.
Qed.

Lemma has_line_break_replace_spaces (name : string) :
  has_line_break (replace_spaces name) = has_line_break name.
Proof.
  induction name as [|c name IH]; simpl; trivial.
  rewrite IH. destruct (Ascii.eqb c " ") eqn:E; trivial.
  apply Ascii.eqb_eq in E. now subst c.
Qed.

(** The header is refused exactly when the user's name holds a line
    break. *)
Lemma header_line_break (user : User.t) :
  has_line_break (content_disposition user)
  = has_line_break (User.name user).
Proof.
  unfold content_disposition, csv_filename.
  rewrite !has_line_break_app, has_line_break_replace_spaces. simpl.
  now rewrite orb_false_r.
Qed.

(** X20. For the same query, day and state the CSV export carries exactly
    the statement the profile page shows, and redirects or fails exactly
    as the page does, with one exception: when the user's name holds a
    line break the page renders and the export raises ValueError, its
    Content-Disposition header being refused. *)
Theorem csv_exports_what_profile_shows (q : statement_query)
    (today : Date.t) (s : site) :
  fst (profile_statement_csv q today s)
  = export_of (fst (profile_get q today s))
  /\ snd (profile_statement_csv q today s) = snd (profile_get q today s).
Proof.
  unfold profile_statement_csv, profile_get, login_required_site.
  destruct (s_user_id (session_of s)); [|split; reflexivity].
  unfold profile_statement_csv_view, profile_get_view.
  destruct (current_user s) as [e | [user|]]; try (split; reflexivity).
  rewrite (proj1 (period_cases q today)), header_line_break. simpl.
  destruct (has_line_break (User.name user)); split; reflexivity.
Qed.

(** A name of two lines, as the profile form accepts it: the page renders
    and the export raises. *)
Example line_break_in_name :
  let nl := String (ascii_of_nat 10) "" in
  let s := {| users := [User.mk 3 ("Caio" ++ nl ++ "Lima") "caio@rbn.local"
                          "employee" "pbkdf2:3" (Some "")];
              site_world := {| store := Sample.same_day;
                               sess := SampleSite.caio_session |} |} in
  let q := mkquery None None None None in
  (exists page, fst (profile_get q (Date.mk 2024 3 7) s) = Rendered page)
  /\ fst (profile_statement_csv q (Date.mk 2024 3 7) s) = Raised ValueError.
Proof. simpl. split; [eexists|]; reflexivity. Qed.

(** A session whose user row no longer exists passes [login_required],
    and then the profile page and its CSV export fail on [user['id']]. *)
Lemma stale_session_raises (q : statement_query) (today : Date.t)
    (s : site) (uid : Z) :
  s_user_id (session_of s) = Some uid -> sqlite_int uid = true ->
  user_by_id (users s) uid = None ->
  profile_get q today s = (Raised TypeError, s)
  /\ profile_statement_csv q today s = (Raised TypeError, s).
Proof.
  intros Hu Hk Hn.
  unfold profile_get, profile_statement_csv, login_required_site,
    profile_get_view, profile_statement_csv_view, current_user.
  now rewrite Hu, Hk, Hn.
Qed.

Lemma user_by_id_deleted (us : list User.t) (k : Z) :
  user_by_id (filter (fun u => negb (Z.eqb (User.id u) k)) us) k = None.
Proof.
  unfold user_by_id. induction us as [|u us IH]; simpl; trivial.
  destruct (Z.eqb (User.id u) k) eqn:E; simpl; trivial. now rewrite E.
Qed.

(** X21. Removing a user does not end that user's session: once an admin
    has removed an employee, a request of the employee's session still
    passes [login_required], and the profile page and its CSV export then
    fail with a TypeError on [user['id']] instead of redirecting to the
    login page. *)
Theorem removed_user_session_fails (q : statement_query) (today : Date.t)
    (s : site) (uid : Z) (u : User.t) (old : session) :
  is_admin (session_of s) ->
  s_user_id (session_of s) <> Some uid ->
  sqlite_int uid = true ->
  user_by_id (users s) uid = Some u -> User.role u <> "admin" ->
  s_user_id old = Some uid ->
  let s1 := snd (admin_delete_user uid s) in
  let s2 := {| users := users s1;
               site_world := {| store := store (site_world s1);
                                sess := old |} |} in
  profile_get q today s2 = (Raised TypeError, s2)
  /\ profile_statement_csv q today s2 = (Raised TypeError, s2).
Proof.
  intros [(me & Hme) Hr] Hself Hk Hu Hrole Hold s1 s2.
  apply (stale_session_raises q today s2 uid); [exact Hold | exact Hk |].
  unfold s2, s1, admin_delete_user, login_required_site. simpl.
  rewrite Hme, Hr. simpl.
  unfold admin_delete_user_view. rewrite Hme, Hk, Hu. simpl.
  assert (E : Z.eqb uid me = false)
    by (apply Z.eqb_neq; congruence).
  assert (R : String.eqb (User.role u) "admin" = false)
    by now apply String.eqb_neq.
  rewrite E, R. simpl. apply user_by_id_deleted.
Qed.

Lemma removed_user_session_fails_witness :
  let s1 := snd (admin_delete_user 3 SampleSite.site1) in
  let s2 := {| users := users s1;
               site_world := {| store := store (site_world s1);
                                sess := SampleSite.caio_session |} |} in
  profile_get (mkquery None None None None) (Date.mk 2024 3 7) s2
  = (Raised TypeError, s2).
Proof.
  intros s1 s2.
  refine (proj1 (removed_user_session_fails (mkquery None None None None)
                   (Date.mk 2024 3 7) SampleSite.site1 3 SampleSite.caio
                   SampleSite.caio_session _ _ _ _ _ _)).
  - split; [now exists 1%Z | reflexivity].
  - discriminate.
  - reflexivity.
  - reflexivity.
  - discriminate.
  - reflexivity.
Defined.

(** * What [api_expenses_create] does not check *)

(** X22. [api_expenses_create] answers 200 as soon as the token is known,
    [trip_id] and [amount] parse, the ids fit 64 bits, date and category
    are present, the amount is not a NaN, an id is left and a receipt, if
    any, has an allowed extension and is written without error: neither
    the sign of the amount, nor the existence or the owner of the trip,
    nor the form of the date is looked at. *)
Theorem api_expenses_create_accepts (form : expense_form)
    (env : environment) (token : string) (uid : Z) (st : api_state)
    (trip_id : Z) (amount : float) (date category : string) :
  dict_get token (tokens st) = Some uid -> uid <> 0%Z ->
  f_trip_id form = Parsed trip_id -> f_amount form = Parsed amount ->
  f_date form = Some date -> f_category form = Some category ->
  sqlite_int trip_id = true -> sqlite_int uid = true ->
  is_nan amount = false ->
  last_id (expenses (api_store st)) <> (2 ^ 63 - 1)%Z ->
  (truthy (f_receipt form) = true ->
   ext_allowed (coalesce_text (f_receipt form) "") = true
   /\ save_fails env = false) ->
  fst (api_expenses_create form env (Some ("Bearer " ++ token)%string) st)
  = Json 200 tt.
Proof.
  intros Hg Hu Ht Ha Hd Hc Hk Hi Hn Hfull Hr.
  unfold api_expenses_create, api_auth_required. simpl.
  assert (Hp : String.prefix "" token = true) by now destruct token.
  rewrite Hp, Hg. apply Z.eqb_neq in Hu. rewrite Hu.
  unfold api_expenses_create_view. rewrite Ht, Ha, Hd, Hc, Hk, Hi, Hn.
  apply Z.eqb_neq in Hfull. rewrite Hfull.
  destruct (truthy (f_receipt form)); [|reflexivity].
  destruct (Hr eq_refl) as [He Hs]. now rewrite He, Hs.
Qed.

Lemma api_expenses_create_accepts_witness :
  fst (api_expenses_create
         {| f_trip_id := Parsed 42%Z; f_date := Some "ontem";
            f_category := Some ""; f_description := None;
            f_amount := Parsed (-25)%float;
            f_receipt := Some "Nota Fiscal.PDF" |}
         SampleApi.env (Some "Bearer 3|abc|1700000000") SampleApi.state)
  = Json 200 tt.
Proof.
  apply (api_expenses_create_accepts _ SampleApi.env "3|abc|1700000000" 3
           SampleApi.state 42 (-25)%float "ontem" "");
    try reflexivity; try discriminate.
  intros _. split; reflexivity.
Defined.

Lemma float_neg_opp_pos (x : float) :
  (x <? 0)%float = true -> (0 <? - x)%float = true.
Proof.
  rewrite !ltb_spec, opp_spec. float_cases x; cbv; congruence.
Qed.

Lemma stored_real_negative (x : float) :
  (x <? 0)%float = true -> stored_real x = x.
Proof.
  unfold stored_real. intros H.
  replace (x =? 0)%float with false; trivial.
  symmetry. revert H. rewrite ltb_spec, eqb_spec.
  float_cases x; cbv; congruence.
Qed.

Lemma api_create_row (form : expense_form) (env : environment)
    (authorization : option string) (st st' : api_state) :
  api_expenses_create form env authorization st = (Json 200 tt, st') ->
  exists trip_id amount row,
    f_trip_id form = Parsed trip_id /\ f_amount form = Parsed amount
    /\ expenses (api_store st') = expenses (api_store st) ++ [row]
    /\ trips (api_store st') = trips (api_store st)
    /\ Expense.trip_id row = trip_id
    /\ Expense.amount row = stored_real amount
    /\ Expense.status row = "pendente".
Proof.
  unfold api_expenses_create. intros H.
  destruct (api_auth_cases (api_expenses_create_view form env)
              authorization st)
    as [(token & uid & Ha & Hg & Hu & E) | (e & E)];
    rewrite E in H; [|discriminate H].
  revert H. unfold api_expenses_create_view.
  destruct (f_trip_id form) as [| |trip_id]; try discriminate.
  destruct (f_amount form) as [| |amount]; try discriminate.
  destruct (truthy (f_receipt form)
            && negb (ext_allowed (coalesce_text (f_receipt form) "")))%bool;
    try discriminate.
  destruct (truthy (f_receipt form) && save_fails env)%bool;
    try discriminate.
  destruct (negb (sqlite_int trip_id && sqlite_int uid)); try discriminate.
  destruct (Z.eqb (last_id (expenses (api_store st))) (2 ^ 63 - 1));
    try discriminate.
  destruct (f_date form) as [date|]; try discriminate.
  destruct (f_category form) as [category|]; try discriminate.
  destruct (is_nan amount); try discriminate.
  intros [= <-]. exists trip_id, amount. eexists. simpl.
  repeat split; trivial.
Qed.

(** X23. Amounts are stored as posted: an expense posted with a negative
    amount on an existing trip, once accepted, is the row appended, holds
    that negative amount, and appears in the statements that select it as
    a 'Despesa' row with a positive amount. *)
Theorem negative_expense_shows_positive (form : expense_form)
    (env : environment) (authorization : option string)
    (st st' : api_state) (amount : float) (t : Trip.t) :
  api_expenses_create form env authorization st = (Json 200 tt, st') ->
  f_amount form = Parsed amount -> (amount <? 0)%float = true ->
  In t (trips (api_store st)) -> f_trip_id form = Parsed (Trip.id t) ->
  exists row,
    In row (expenses (api_store st'))
    /\ Expense.status row = "pendente"
    /\ (0 <? Row.amount (expense_row row t))%float = true
    /\ (forall user_id start end_ include_rejected,
          where_e user_id start end_ include_rejected row = true ->
          In (expense_row row t)
            (fetch_user_statement (api_store st') user_id start end_
               include_rejected))
    /\ expenses (api_store st') = expenses (api_store st) ++ [row]
    /\ Expense.amount row = amount.
Proof.
  intros H Ha Hneg Ht Hk.
  destruct (api_create_row _ _ _ _ _ H)
    as (k & a & row & Hk' & Ha' & He & Htr & Hrk & Hra & Hrs).
  rewrite Ha in Ha'. injection Ha' as <-.
  rewrite Hk in Hk'. injection Hk' as <-.
  rewrite (stored_real_negative _ Hneg) in Hra.
  assert (Hin : In row (expenses (api_store st')))
    by (rewrite He; apply in_or_app; right; now left).
  exists row.
  split; [exact Hin|]. split; [exact Hrs|]. split; [|split; [|now split]].
  - simpl. rewrite Hra. now apply float_neg_opp_pos.
  - intros user_id start end_ include_rejected Hw.
    apply statement_In, union_all_In. right. exists row.
    split; [exact Hin|]. split; [exact Hw|].
    apply expense_rows_spec. exists t. rewrite Htr. now repeat split.
Qed.

Lemma negative_expense_shows_positive_witness :
  exists row,
    In row
      (expenses
         (api_store
            (snd (api_expenses_create
                    {| f_trip_id := Parsed 1%Z; f_date := Some "2024-01-09";
                       f_category := Some "Hotel"; f_description := None;
                       f_amount := Parsed (-25)%float; f_receipt := None |}
                    SampleApi.env (Some "Bearer 3|abc|1700000000")
                    {| tokens := tokens SampleApi.state;
                       api_store := Sample.same_day |}))))
    /\ Expense.status row = "pendente"
    /\ (0 <? Row.amount (expense_row row Sample.trip1))%float = true.
Proof.
  destruct (negative_expense_shows_positive
              {| f_trip_id := Parsed 1%Z; f_date := Some "2024-01-09";
                 f_category := Some "Hotel"; f_description := None;
                 f_amount := Parsed (-25)%float; f_receipt := None |}
              SampleApi.env (Some "Bearer 3|abc|1700000000")
              {| tokens := tokens SampleApi.state;
                 api_store := Sample.same_day |} _ (-25)%float Sample.trip1
              eq_refl eq_refl eq_refl (or_introl eq_refl) eq_refl)
    as (row & H1 & H2 & H3 & _).
  exists row. repeat split; assumption.
Defined.

(** * The dashboard summary against [calc_user_totals] *)

Lemma float_or_zero_of_zero (x : float) (s : bool) :
  Prim2SF x = S754_zero s -> float_or_zero x = 0%float.
Proof.
  intros H. unfold float_or_zero. rewrite eqb_spec, H.
  change (Prim2SF 0) with (S754_zero false). reflexivity.
Qed.

Lemma float_or_zero_cases (a b : float) :
  float_or_zero a = float_or_zero b ->
  a = b \/ exists s t, Prim2SF a = S754_zero s /\ Prim2SF b = S754_zero t.
Proof.
  unfold float_or_zero. rewrite !eqb_spec.
  change (Prim2SF 0) with (S754_zero false).
  destruct (Prim2SF a) as [s | s | | s m e] eqn:A;
    destruct (Prim2SF b) as [t | t | | t m' e'] eqn:B;
    try (intros _; right; now eauto);
    repeat match goal with
           | x : bool |- _ => destruct x
           end;
    cbn; intros H; try (now left);
    exfalso; apply (f_equal Prim2SF) in H; rewrite ?A, ?B in H;
    change (Prim2SF 0) with (S754_zero false) in H; discriminate H.
Qed.

(** Up to the sign of a zero, adding to equal accumulators gives equal
    sums, and adding 0 changes nothing. *)
Lemma float_or_zero_add (a b x : float) :
  float_or_zero a = float_or_zero b ->
  float_or_zero (a + x) = float_or_zero (b + x).
Proof.
  intros H. destruct (float_or_zero_cases _ _ H) as [-> | (s & t & A & B)];
    trivial.
  pose proof (add_spec a x) as Ha. pose proof (add_spec b x) as Hb.
  rewrite A in Ha. rewrite B in Hb.
  destruct (Prim2SF x) as [u | u | | u m e] eqn:X.
  - rewrite (float_or_zero_of_zero (a + x)
               (if s then if u then true else false
                else if u then false else false)).
    + symmetry.
      apply (float_or_zero_of_zero (b + x)
               (if t then if u then true else false
                else if u then false else false)).
      rewrite Hb. now destruct t, u.
    + rewrite Ha. now destruct s, u.
  - f_equal. apply Prim2SF_inj. now rewrite Ha, Hb.
  - f_equal. apply Prim2SF_inj. now rewrite Ha, Hb.
  - f_equal. apply Prim2SF_inj. now rewrite Ha, Hb.
Qed.

Lemma float_or_zero_add_zero (a : float) :
  float_or_zero (a + 0) = float_or_zero a.
Proof.
  pose proof (add_spec a 0) as H.
  change (Prim2SF 0) with (S754_zero false) in H.
  destruct (Prim2SF a) as [s | s | | s m e] eqn:A.
  - rewrite (float_or_zero_of_zero a s A).
    apply (float_or_zero_of_zero _ false). rewrite H. now destruct s.
  - f_equal. apply Prim2SF_inj. now rewrite H, A.
  - f_equal. apply Prim2SF_inj. now rewrite H, A.
  - f_equal. apply Prim2SF_inj. now rewrite H, A.
Qed.

Lemma float_or_zero_sub (a b x y : float) :
  float_or_zero a = float_or_zero b ->
  float_or_zero x = float_or_zero y ->
  float_or_zero (a - x) = float_or_zero (b - y).
Proof.
  intros Hab Hxy.
  pose proof (sub_spec a x) as H1. pose proof (sub_spec b y) as H2.
  destruct (float_or_zero_cases _ _ Hab) as [-> | (s & t & A & B)];
    destruct (float_or_zero_cases _ _ Hxy) as [-> | (u & v & X & Y)];
    trivial.
  - rewrite X in H1. rewrite Y in H2.
    destruct (Prim2SF b) as [s | s | | s m e] eqn:B.
    + rewrite (float_or_zero_of_zero (b - x)
                 (if s then if u then false else true
                  else if u then false else false)).
      * symmetry.
        apply (float_or_zero_of_zero (b - y)
                 (if s then if v then false else true
                  else if v then false else false)).
        rewrite H2. now destruct s, v.
      * rewrite H1. now destruct s, u.
    + f_equal. apply Prim2SF_inj. now rewrite H1, H2.
    + f_equal. apply Prim2SF_inj. now rewrite H1, H2.
    + f_equal. apply Prim2SF_inj. now rewrite H1, H2.
  - rewrite A in H1. rewrite B in H2.
    destruct (Prim2SF y) as [u | u | | u m e] eqn:Y.
    + rewrite (float_or_zero_of_zero (a - y)
                 (if s then if u then false else true
                  else if u then false else false)).
      * symmetry.
        apply (float_or_zero_of_zero (b - y)
                 (if t then if u then false else true
                  else if u then false else false)).
        rewrite H2. now destruct t, u.
      * rewrite H1. now destruct s, u.
    + f_equal. apply Prim2SF_inj. now rewrite H1, H2.
    + f_equal. apply Prim2SF_inj. now rewrite H1, H2.
    + f_equal. apply Prim2SF_inj. now rewrite H1, H2.
  - rewrite A, X in H1. rewrite B, Y in H2.
    rewrite (float_or_zero_of_zero (a - x)
               (if s then if u then false else true
                else if u then false else false)).
    + symmetry.
      apply (float_or_zero_of_zero (b - y)
               (if t then if v then false else true
                else if v then false else false)).
      rewrite H2. now destruct t, v.
    + rewrite H1. now destruct s, u.
Qed.

Lemma float_or_zero_idempotent (x : float) :
  float_or_zero (float_or_zero x) = float_or_zero x.
Proof.
  unfold float_or_zero.
  destruct (x =? 0)%float eqn:E; [reflexivity | now rewrite E].
Qed.

Lemma coalesce_sum (l : list float) :
  coalesce_zero (sql_sum l) = float_sum l.
Proof. now destruct l. Qed.

Lemma sum_with_zeros {A : Type} (f : A -> bool) (amount : A -> float)
    (l : list A) (acc acc' : float) :
  float_or_zero acc = float_or_zero acc' ->
  float_or_zero
    (fold_left PrimFloat.add
       (map (fun e => if f e then amount e else 0%float) l) acc)
  = float_or_zero
      (fold_left PrimFloat.add (map amount (filter f l)) acc').
Proof.
  revert acc acc'. induction l as [|e l IH]; simpl; intros acc acc' H;
    trivial.
  destruct (f e); simpl.
  - apply IH. now apply float_or_zero_add.
  - apply IH. now rewrite float_or_zero_add_zero.
Qed.

Lemma where_e_all_time (user_id : Z) (es : list Expense.t) :
  filter (where_e user_id None None false) es
  = filter not_rejected (filter (of_user_e user_id) es).
Proof.
  rewrite <- filter_andb. apply filter_ext. intros e.
  unfold where_e, of_user_e, not_rejected, status_filter. simpl.
  now rewrite andb_true_r.
Qed.

Lemma where_d_all_time (user_id : Z) (ds : list Deposit.t) :
  filter (where_d user_id None None) ds = filter (of_user_d user_id) ds.
Proof.
  apply filter_ext. intros x. unfold where_d, of_user_d. simpl.
  apply andb_true_r.
Qed.

Lemma summary_matches_totals (d : database) (u : User.t) :
  let r := summary_of d u in
  let t := calc_user_totals d (User.id u) None None false in
  float_or_zero (sr_total_despesas r) = t_expenses t
  /\ float_or_zero (sr_total_depositos r) = t_deposits t
  /\ float_or_zero (sr_saldo r) = float_or_zero (t_balance t).
Proof.
  assert (He : float_or_zero (sr_total_despesas (summary_of d u))
               = t_expenses (calc_user_totals d (User.id u) None None
                               false)).
  { unfold summary_of, calc_user_totals. simpl.
    rewrite !coalesce_sum, where_e_all_time. unfold summary_values.
    destruct (filter (of_user_e (User.id u)) (expenses d)) as [|e l] eqn:F.
    - reflexivity.
    - unfold float_sum. now apply sum_with_zeros. }
  assert (Hd : float_or_zero (sr_total_depositos (summary_of d u))
               = t_deposits (calc_user_totals d (User.id u) None None
                               false)).
  { unfold summary_of, calc_user_totals. simpl.
    now rewrite where_d_all_time. }
  repeat split; trivial.
  unfold sr_saldo.
  change (t_balance (calc_user_totals d (User.id u) None None false))
    with (t_deposits (calc_user_totals d (User.id u) None None false)
          - t_expenses (calc_user_totals d (User.id u) None None false))%float.
  rewrite <- He, <- Hd.
  apply float_or_zero_sub; symmetry; apply float_or_zero_idempotent.
Qed.

(** X24. The summary by employee of the admin dashboard shows, for each
    user ([users.id] being a key), the all-time totals [calc_user_totals]
    computes without rejected expenses: the same expenses total, the same
    deposits total and the same balance, as binary64 values up to the sign
    of a zero, the 0 the dashboard adds for a rejected expense changing no
    sum. *)
Theorem dashboard_agrees_with_totals (s s' : site) (page : dashboard_page)
    (r : summary_row) :
  NoDup (map User.id (users s)) ->
  admin_dashboard s = (Rendered page, s') ->
  In r (dp_totals page) ->
  let t := calc_user_totals (store (site_world s)) (sr_uid r) None None
             false in
  (exists u, In u (users s) /\ User.id u = sr_uid r
             /\ User.name u = sr_name r)
  /\ float_or_zero (sr_total_despesas r) = t_expenses t
  /\ float_or_zero (sr_total_depositos r) = t_deposits t
  /\ float_or_zero (sr_saldo r) = float_or_zero (t_balance t).
Proof.
  intros _. unfold admin_dashboard, login_required_site.
  destruct (s_user_id (session_of s)); [|discriminate].
  destruct (truthy (Some "admin")
            && role_differs (s_role (session_of s)) "admin")%bool;
    [discriminate|].
  unfold admin_dashboard_view. intros [= <- <-]. simpl.
  intros Hr.
  apply (Permutation_in _
           (Permutation_sym (SummarySort.Permuted_sort _))) in Hr.
  apply in_map_iff in Hr. destruct Hr as (u & <- & Hu).
  split; [now exists u|]. apply summary_matches_totals.
Qed.

Lemma dashboard_agrees_with_totals_witness :
  let r := summary_of Sample.approved_and_rejected SampleSite.ana in
  float_or_zero (sr_total_despesas r)
  = t_expenses (calc_user_totals Sample.approved_and_rejected 1 None None
                  false).
Proof.
  intros r.
  refine (proj1 (proj2 (dashboard_agrees_with_totals
                          {| users := [SampleSite.ana];
                             site_world :=
                               {| store := Sample.approved_and_rejected;
                                  sess := Sample.admin_session |} |}
                          _ _ r _ eq_refl _))).
  - simpl. repeat constructor. simpl. tauto.
  - simpl. now left.
Defined.

(** X25. The pending list of the dashboard holds exactly the expenses in
    status 'pendente' whose user row and trip row both exist, each with
    that user's name and that trip's title: a pending expense of a removed
    user, or on a trip that does not exist, is not offered for approval. *)
Theorem dashboard_pending_spec (s s' : site) (page : dashboard_page)
    (r : pending_row) :
  admin_dashboard s = (Rendered page, s') ->
  (In r (dp_pend page) <->
   In (pr_expense r) (expenses (store (site_world s)))
   /\ Expense.status (pr_expense r) = "pendente"
   /\ (exists u, In u (users s)
                 /\ User.id u = Expense.user_id (pr_expense r)
                 /\ User.name u = pr_uname r)
   /\ (exists t, In t (trips (store (site_world s)))
                 /\ Trip.id t = Expense.trip_id (pr_expense r)
                 /\ Trip.title t = pr_ttitle r)).
Proof.
  unfold admin_dashboard, login_required_site.
  destruct (s_user_id (session_of s)); [|discriminate].
  destruct (truthy (Some "admin")
            && role_differs (s_role (session_of s)) "admin")%bool;
    [discriminate|].
  unfold admin_dashboard_view. intros [= <- <-]. simpl.
  split.
  - intros Hr.
    apply (Permutation_in _
             (Permutation_sym (PendingSort.Permuted_sort _))) in Hr.
    unfold pending_rows in Hr. apply in_flat_map in Hr.
    destruct Hr as (e & He & Hr). apply filter_In in He.
    destruct He as [He Hs]. apply String.eqb_eq in Hs.
    apply in_flat_map in Hr. destruct Hr as (u & Hu & Hr).
    apply filter_In in Hu. destruct Hu as [Hu Hk]. apply Z.eqb_eq in Hk.
    apply in_map_iff in Hr. destruct Hr as (t & <- & Ht).
    simpl in Ht. apply filter_In in Ht. destruct Ht as [Ht Hkt].
    apply Z.eqb_eq in Hkt. simpl. repeat split; trivial.
    + now exists u.
    + now exists t.
  - intros (He & Hs & (u & Hu & Hk & Hn) & (t & Ht & Hkt & Htt)).
    apply (Permutation_in _ (PendingSort.Permuted_sort _)).
    unfold pending_rows. apply in_flat_map. exists (pr_expense r).
    split; [apply filter_In; split; trivial; now apply String.eqb_eq|].
    apply in_flat_map. exists u.
    split; [apply filter_In; split; trivial; now apply Z.eqb_eq|].
    apply in_map_iff. exists t. split.
    + destruct r as [e n tt]. simpl in *. now subst.
    + simpl. apply filter_In. split; trivial. now apply Z.eqb_eq.
Qed.

Lemma dashboard_pending_spec_witness :
  ~ In (mkpending (Sample.expense 1 99 "2024-01-05" 50 "pendente")
          "Ana" "Feira SP")
       (dp_pend
          {| dp_pend :=
               PendingSort.sort
                 (pending_rows [SampleSite.ana] Sample.dangling_trip);
             dp_totals :=
               SummarySort.sort
                 (map (summary_of Sample.dangling_trip)
                    [SampleSite.ana]) |}).
Proof.
  intros H.
  apply (dashboard_pending_spec
           {| users := [SampleSite.ana];
              site_world := {| store := Sample.dangling_trip;
                               sess := Sample.admin_session |} |}
           _ _ _ eq_refl) in H.
  destruct H as (_ & _ & _ & (t & [] & _)).
Defined.

(** * What the API lists *)

Lemma expense_id_desc_trans :
  Transitive (fun a b => is_true (expense_id_desc a b)).
Proof.
  intros a b c. unfold expense_id_desc, is_true. rewrite !Z.leb_le. lia.
Qed.

(** X26. [api_expenses_list] answers 200 only to a known token, changes
    nothing, and lists exactly the expenses whose [user_id] is the user of
    the token, none of another user, by descending id. *)
Theorem api_expenses_list_own (authorization : option string)
    (st st' : api_state) (rows : list Expense.t) :
  api_expenses_list authorization st = (Json 200 rows, st') ->
  st' = st
  /\ exists token uid,
       authorization = Some ("Bearer " ++ token)%string
       /\ dict_get token (tokens st) = Some uid
       /\ (forall e, In e rows <->
                     In e (expenses (api_store st))
                     /\ Expense.user_id e = uid)
       /\ StronglySorted (fun a b => (Expense.id b <= Expense.id a)%Z) rows.
Proof.
  unfold api_expenses_list. intros H.
  destruct (api_auth_cases api_expenses_list_view authorization st)
    as [(token & uid & Ha & Hg & Hu & E) | (e & E)];
    rewrite E in H; [|discriminate H].
  unfold api_expenses_list_view in H.
  destruct (negb (sqlite_int uid)); [discriminate H|].
  injection H as <- <-. split; trivial.
  exists token, uid.
  split; [exact Ha|]. split; [exact Hg|]. split.
  - intros e. split.
    + intros He.
      apply (Permutation_in _
               (Permutation_sym (ExpenseSort.Permuted_sort _))) in He.
      apply filter_In in He. destruct He as [He Hk].
      split; trivial. now apply Z.eqb_eq.
    + intros [He Hk].
      apply (Permutation_in _ (ExpenseSort.Permuted_sort _)).
      apply filter_In. split; trivial. now apply Z.eqb_eq.
  - pose proof (ExpenseSort.StronglySorted_sort
                  (filter (of_user_e uid) (expenses (api_store st)))
                  expense_id_desc_trans) as S.
    induction S as [|a l _ IH Hall]; constructor; trivial.
    apply Forall_forall. intros b Hb.
    apply (proj1 (Forall_forall _ _) Hall) in Hb.
    now apply Z.leb_le.
Qed.

Lemma api_expenses_list_own_witness :
  StronglySorted (fun a b => (Expense.id b <= Expense.id a)%Z)
    (ExpenseSort.sort
       (filter (of_user_e 1) (expenses Sample.approved_and_rejected))).
Proof.
  destruct (api_expenses_list_own (Some "Bearer 1|abc|1700000000")
              {| tokens := [("1|abc|1700000000", 1%Z)];
                 api_store := Sample.approved_and_rejected |} _ _ eq_refl)
    as (_ & token & uid & _ & _ & _ & H).
  exact H.
Defined.
